(** * Pollen forecast scraper: extraction pipeline and cache

    A shallow embedding of the three variants of the program
    ([main.go] and the two variants with a read/write locked cache and a
    periodic refresh job), followed by the properties of the extraction
    and of the cache that the specification states.

    Layout:
    - [strconv]: Go's integer parsing, as used through [strconv.Atoi];
    - [goquery]: the parsed document tree and the selections the program
      takes on it;
    - [main_go], [part_000], [part_001]: one module per source variant;
    - [Spec], [History], [Policy]: the vocabulary of the specification;
    - [gin], [handlers], [Eager], [History000], [Published]: the HTTP
      handlers, the goroutines started by reads, and what histories
      publish;
    - the proofs. *)

From Stdlib Require Import ZArith List String Ascii Bool Lia.
Import ListNotations.
Set Warnings "-register-all".
Local Open Scope string_scope.
Local Open Scope list_scope.
Local Open Scope Z_scope.

(* ------------------------------------------------------------------ *)
(** ** Go's [strconv]: base-10 integer parsing *)

Module strconv.

(** The two failure kinds of a [*NumError]. *)
Inductive errKind := ErrSyntax | ErrRange.

(** [&NumError{Func, Num, Err}]: [Num] is the input as it was given. *)
Record NumError := mkNumError { Num : string; Err : errKind }.

(** [int] is 64 bits wide on the platforms the service is built for. *)
Definition IntSize : Z := 64.
Definition maxUint64 : Z := 2 ^ 64 - 1.

Definition byte_of (c : ascii) : Z := Z.of_N (N_of_ascii c).

(** The digit loop of [ParseUint(s, 10, 64)].  [n] is the [uint64]
    accumulator; [n*10] cannot wrap once [n < cutoff], the addition of
    the digit can, and is written out with its wrap-around. *)
Fixpoint ParseUint_loop (n : Z) (s : string) : Z * option errKind :=
  match s with
  | EmptyString => (n, None)
  | String c rest =>
      let b := byte_of c in
      if (48 <=? b) && (b <=? 57) then
        let d := b - 48 in
        let cutoff := maxUint64 / 10 + 1 in
        let maxVal := 2 ^ IntSize - 1 in
        if cutoff <=? n then (maxVal, Some ErrRange)
        else
          let n10 := n * 10 in
          let n1 := (n10 + d) mod 2 ^ 64 in
          if (n1 <? n10) || (maxVal <? n1) then (maxVal, Some ErrRange)
          else ParseUint_loop n1 rest
      else (0, Some ErrSyntax)
  end.

Definition ParseUint (s : string) : Z * option errKind :=
  match s with
  | EmptyString => (0, Some ErrSyntax)
  | _ => ParseUint_loop 0 s
  end.

(** [ParseInt(s, 10, 0)]: an optional sign, then [ParseUint], then the
    range check against [1 << 63]. *)
Definition ParseInt (s0 : string) : Z * option NumError :=
  match s0 with
  | EmptyString => (0, Some (mkNumError s0 ErrSyntax))
  | String c rest =>
      let b := byte_of c in
      let neg := b =? 45 in
      let s := if (b =? 43) || (b =? 45) then rest else s0 in
      let '(un, err) := ParseUint s in
      match err with
      | Some ErrSyntax => (0, Some (mkNumError s0 ErrSyntax))
      | _ =>
          let cutoff := 2 ^ (IntSize - 1) in
          if negb neg && (cutoff <=? un) then
            (cutoff - 1, Some (mkNumError s0 ErrRange))
          else if neg && (cutoff <? un) then
            (- cutoff, Some (mkNumError s0 ErrRange))
          else (if neg then - un else un, None)
      end
  end.

(** [Atoi(s)] is [ParseInt(s, 10, 0)] converted to [int]. *)
Definition Atoi (s : string) : Z * option NumError := ParseInt s.

(** *** What a base-10 integer text is, independently of the parser *)

Definition is_digit (c : ascii) : bool :=
  (48 <=? byte_of c) && (byte_of c <=? 57).

Fixpoint all_digits (s : string) : bool :=
  match s with
  | EmptyString => true
  | String c rest => is_digit c && all_digits rest
  end.

(** Value of a digit string read after an accumulated prefix [n]. *)
Fixpoint digits_value (n : Z) (s : string) : Z :=
  match s with
  | EmptyString => n
  | String c rest => digits_value (n * 10 + (byte_of c - 48)) rest
  end.

(** Splits an optional leading sign off: [(negative, magnitude text)]. *)
Definition split_sign (s : string) : bool * string :=
  match s with
  | String c rest =>
      if byte_of c =? 45 then (true, rest)
      else if byte_of c =? 43 then (false, rest)
      else (false, s)
  | EmptyString => (false, s)
  end.

(** An optional sign followed by at least one decimal digit. *)
Definition is_base10_syntax (s : string) : bool :=
  let m := snd (split_sign s) in
  negb (m =? "")%string && all_digits m.

(** The integer such a text denotes. *)
Definition base10_value (s : string) : Z :=
  let '(neg, m) := split_sign s in
  if neg then - digits_value 0 m else digits_value 0 m.

Definition minInt : Z := - 2 ^ 63.
Definition maxInt : Z := 2 ^ 63 - 1.

(** A valid base-10 integer for [int]: well-formed and in range. *)
Definition valid_base10_int (s : string) : bool :=
  is_base10_syntax s
  && (minInt <=? base10_value s) && (base10_value s <=? maxInt).

End strconv.

(* ------------------------------------------------------------------ *)
(** ** The parsed document and goquery selections *)

Module goquery.

(** A parsed HTML node: a text node, or an element with its tag, the
    class names of its [class] attribute, and its children. *)
Inductive node :=
| TextNode (data : string)
| Element (tag : string) (classes : list string) (children : list node).

(** A [*goquery.Selection] is an ordered set of nodes. *)
Definition Selection := list node.

(** [Selection.Text()] of one node: the text of all its descendants,
    concatenated in document order. *)
Fixpoint node_text (n : node) : string :=
  match n with
  | TextNode data => data
  | Element _ _ children =>
      (fix go (l : list node) : string :=
         match l with
         | [] => ""
         | c :: l' => (node_text c ++ go l')%string
         end) children
  end.

Definition Text (sel : Selection) : string :=
  fold_right (fun n acc => (node_text n ++ acc)%string) "" sel.

(** The elements named [tag] among a node and its descendants, in
    document order. *)
Fixpoint self_or_descendants (tag : string) (n : node) : list node :=
  match n with
  | TextNode _ => []
  | Element t _ children =>
      (if (t =? tag)%string then [n] else [])
      ++ (fix go (l : list node) : list node :=
            match l with
            | [] => []
            | c :: l' => self_or_descendants tag c ++ go l'
            end) children
  end.

(** [Find(tag)] on a selection of one node: its proper descendants
    named [tag]. *)
Definition Find (tag : string) (n : node) : Selection :=
  match n with
  | TextNode _ => []
  | Element _ _ children => flat_map (self_or_descendants tag) children
  end.

Definition First (sel : Selection) : Selection :=
  match sel with
  | [] => []
  | n :: _ => [n]
  end.

Definition Last (sel : Selection) : Selection :=
  match sel with
  | [] => []
  | _ => [last sel (TextNode "")]
  end.

Definition Length (sel : Selection) : Z := Z.of_nat (List.length sel).

(** [Find("div.tx-dmi-data-store table table")] on the document: every
    [table] with a [table] ancestor that itself has a [div] ancestor of
    class [tx-dmi-data-store].  [inDiv] says that such a [div] is among
    the ancestors, [inTable] that such a [table] is. *)
Fixpoint find_blocks (inDiv inTable : bool) (n : node) : list node :=
  match n with
  | TextNode _ => []
  | Element t cls children =>
      let isTable := (t =? "table")%string in
      let isDiv :=
        (t =? "div")%string
        && existsb (fun c => (c =? "tx-dmi-data-store")%string) cls in
      (if isTable && inTable then [n] else [])
      ++ (fix go (l : list node) : list node :=
            match l with
            | [] => []
            | c :: l' =>
                find_blocks (inDiv || isDiv) (inTable || (isTable && inDiv)) c
                ++ go l'
            end) children
  end.

(** The document root is given as the list of its top-level nodes. *)
Definition Document := list node.

Definition FindBlocks (doc : Document) : Selection :=
  flat_map (find_blocks false false) doc.

End goquery.

(* ------------------------------------------------------------------ *)
(** ** Data shared by the three variants *)

(** [type forecastValue struct { Name string; Value int }] *)
Record forecastValue := mkForecastValue { Name : string; Value : Z }.

(** [type forecast struct { CityName, ForecastText string; Values []forecastValue }] *)
Record forecast := mkForecast {
  CityName : string;
  ForecastText : string;
  Values : list forecastValue
}.

(** The errors the program builds, by the call that builds them. *)
Inductive error :=
| FetchError (cause : string)
    (* fmt.Errorf("error fetching from URL: %v", err) *)
| ParseError (strValue : string) (innerErr : strconv.NumError)
    (* fmt.Errorf("unable to parse pollen value for ...", strValue, innerErr) *)
| CacheEmpty.
    (* errors.New("Cache is empty, try again in a few seconds") *)

(** A Go slice variable is [nil] or holds a (possibly empty) sequence. *)
Definition slice (A : Type) := option (list A).

(** What the outside world answers during one rebuild:
    [goquery.NewDocument(url)] gives a transport error or the parsed
    document, [time.Now().UTC()] gives the clock. *)
Record World := mkWorld {
  NewDocument : string + goquery.Document;
  Now : Z
}.

(** Goroutines started with [go] and not yet scheduled. *)
Inductive goroutine := GoRebuildCache.

(** Lines written through package [log]. *)
Inductive logLine :=
| LogRebuildError (e : error)    (* "Error rebuilding cache:", err *)
| LogRebuildOk.                  (* "Cache rebuild successful" *)

(* ------------------------------------------------------------------ *)
(** ** Locks and the state-passing monad *)

(** [sync.Mutex] *)
Record Mutex := mkMutex { locked : bool }.

(** [sync.RWMutex]: one writer, or any number of readers. *)
Record RWMutex := mkRWMutex { writer : bool; readers : nat }.

Definition rw_free (m : RWMutex) : Prop := writer m = false /\ readers m = 0%nat.

(** A computation on a state [S]: [None] when it cannot proceed from the
    given state (a lock it needs is held, or it releases a lock it does
    not hold). *)
Definition M (S A : Type) : Type := S -> option (S * A).

Definition ret {S A} (a : A) : M S A := fun s => Some (s, a).

Definition bind {S A B} (m : M S A) (k : A -> M S B) : M S B :=
  fun s => match m s with
           | Some (s', a) => k a s'
           | None => None
           end.

Notation "x <- m ;; k" := (bind m (fun x => k))
  (at level 61, m at next level, right associativity).
Notation "m ;; k" := (bind m (fun _ => k))
  (at level 61, right associativity).

(** [defer cleanup; body]: [cleanup] runs when [body] returns, on every
    return path, and the result of [body] is the result of the call. *)
Definition defer {S A} (cleanup : M S unit) (body : M S A) : M S A :=
  r <- body ;; cleanup ;; ret r.

Definition mutex_Lock (m : Mutex) : option Mutex :=
  if locked m then None else Some (mkMutex true).

Definition mutex_Unlock (m : Mutex) : option Mutex :=
  if locked m then Some (mkMutex false) else None.

Definition rw_Lock (m : RWMutex) : option RWMutex :=
  if writer m then None
  else match readers m with
       | O => Some (mkRWMutex true O)
       | S _ => None
       end.

Definition rw_Unlock (m : RWMutex) : option RWMutex :=
  if writer m then Some (mkRWMutex false (readers m)) else None.

Definition rw_RLock (m : RWMutex) : option RWMutex :=
  if writer m then None else Some (mkRWMutex false (S (readers m))).

Definition rw_RUnlock (m : RWMutex) : option RWMutex :=
  match readers m with
  | O => None
  | S r => Some (mkRWMutex (writer m) r)
  end.

Definition is_err (e : option error) : bool :=
  match e with Some _ => true | None => false end.

(* ------------------------------------------------------------------ *)
(** ** Variant [main.go]: fetch on the first request, cache for ever *)

Module main_go.
Import goquery.

Record State := mkState { cacheMutex : Mutex; cache : slice forecast }.

(** Process start: [var cache []forecast] is [nil]. *)
Definition init : State := mkState (mkMutex false) None.

Definition Lock : M State unit := fun s =>
  match mutex_Lock (cacheMutex s) with
  | Some m => Some (mkState m (cache s), tt)
  | None => None
  end.

Definition Unlock : M State unit := fun s =>
  match mutex_Unlock (cacheMutex s) with
  | Some m => Some (mkState m (cache s), tt)
  | None => None
  end.

Definition get_cache : M State (slice forecast) := fun s => Some (s, cache s).

Definition set_cache (c : slice forecast) : M State unit :=
  fun s => Some (mkState (cacheMutex s) c, tt).

(** The callback of [selection.Find("tr").Each]; it closes over [err]
    and [forecastValues], which are passed and returned here. *)
Definition eachRow (acc : option error * list forecastValue) (sel : node)
  : option error * list forecastValue :=
  let '(err, forecastValues) := acc in
  if is_err err || negb (Length (Find "td" sel) =? 2) then acc
  else
    let strValue := Text (Last (Find "td" sel)) in
    let '(value, err) :=
      if negb (strValue =? "-")%string then
        let '(value, innerErr) := strconv.Atoi strValue in
        match innerErr with
        | Some ie => (value, Some (ParseError strValue ie))
        | None => (value, err)
        end
      else (0, err) in
    (err,
     forecastValues
       ++ [mkForecastValue (Text (First (Find "td" sel))) value]).

(** The callback of [doc.Find(...).Each]; it closes over [outerErr] and
    [forecasts]. *)
Definition eachBlock (acc : option error * list forecast) (selection : node)
  : option error * list forecast :=
  let '(outerErr, forecasts) := acc in
  if is_err outerErr then acc
  else
    let cityName := Text (First (Find "tr" selection)) in
    let forecastText := Text (Last (Find "tr" selection)) in
    let '(err, forecastValues) :=
      fold_left eachRow (Find "tr" selection) (None, []) in
    match err with
    | Some e => (Some e, forecasts)
    | None =>
        (None, forecasts ++ [mkForecast cityName forecastText forecastValues])
    end.

(** Lines 58 to 109: from [forecasts := make(...)] to the end of the
    outer [Each]. *)
Definition extract (doc : Document) : option error * list forecast :=
  fold_left eachBlock (FindBlocks doc) (None, []).

Definition fetchParseAndJsonify (w : World)
  : M State (slice forecast * option error) :=
  Lock ;;
  c <- get_cache ;;
  match c with
  | Some _ => Unlock ;; ret (c, None)
  | None =>
      Unlock ;;
      match NewDocument w with
      | inl cause => ret (None, Some (FetchError cause))
      | inr doc =>
          let '(outerErr, forecasts) := extract doc in
          match outerErr with
          | Some e => ret (None, Some e)
          | None =>
              Lock ;;
              set_cache (Some forecasts) ;;
              Unlock ;;
              ret (Some forecasts, None)
          end
      end
  end.

End main_go.

(* ------------------------------------------------------------------ *)
(** ** Variant with a read/write lock and a periodic refresh job *)

Module part_001.
Import goquery.

Record State := mkState {
  cacheMutex : RWMutex;
  cache : slice forecast;
  goroutines : list goroutine;   (* started with [go], not yet run *)
  logged : list logLine;         (* output of package [log] *)
  exited : option Z              (* [os.Exit] code once the process ended *)
}.

Definition init : State := mkState (mkRWMutex false 0) None [] [] None.

Definition with_mutex (f : RWMutex -> option RWMutex) : M State unit :=
  fun s =>
    match f (cacheMutex s) with
    | Some m => Some (mkState m (cache s) (goroutines s) (logged s) (exited s), tt)
    | None => None
    end.

Definition Lock := with_mutex rw_Lock.
Definition Unlock := with_mutex rw_Unlock.
Definition RLock := with_mutex rw_RLock.
Definition RUnlock := with_mutex rw_RUnlock.

Definition get_cache : M State (slice forecast) := fun s => Some (s, cache s).

Definition set_cache (c : slice forecast) : M State unit := fun s =>
  Some (mkState (cacheMutex s) c (goroutines s) (logged s) (exited s), tt).

(** [go f()]: the goroutine is only registered; it runs later. *)
Definition go (g : goroutine) : M State unit := fun s =>
  Some (mkState (cacheMutex s) (cache s) (goroutines s ++ [g]) (logged s)
          (exited s), tt).

Definition log_Println (l : logLine) : M State unit := fun s =>
  Some (mkState (cacheMutex s) (cache s) (goroutines s) (logged s ++ [l])
          (exited s), tt).

(** [log.Fatalln]: [Println] followed by [os.Exit(1)]. *)
Definition log_Fatalln (l : logLine) : M State unit := fun s =>
  Some (mkState (cacheMutex s) (cache s) (goroutines s) (logged s ++ [l])
          (Some 1), tt).

Definition eachRow (acc : option error * list forecastValue) (sel : node)
  : option error * list forecastValue :=
  let '(err, forecastValues) := acc in
  if is_err err || negb (Length (Find "td" sel) =? 2) then acc
  else
    let strValue := Text (Last (Find "td" sel)) in
    let '(value, err) :=
      if negb (strValue =? "-")%string then
        let '(value, innerErr) := strconv.Atoi strValue in
        match innerErr with
        | Some ie => (value, Some (ParseError strValue ie))
        | None => (value, err)
        end
      else (0, err) in
    (err,
     forecastValues
       ++ [mkForecastValue (Text (First (Find "td" sel))) value]).

Definition eachBlock (acc : option error * list forecast) (selection : node)
  : option error * list forecast :=
  let '(outerErr, forecasts) := acc in
  if is_err outerErr then acc
  else
    let cityName := Text (First (Find "tr" selection)) in
    let forecastText := Text (Last (Find "tr" selection)) in
    let '(err, forecastValues) :=
      fold_left eachRow (Find "tr" selection) (None, []) in
    match err with
    | Some e => (Some e, forecasts)
    | None =>
        (None, forecasts ++ [mkForecast cityName forecastText forecastValues])
    end.

(** Lines 100 to 151 of [rebuildCache]. *)
Definition extract (doc : Document) : option error * list forecast :=
  fold_left eachBlock (FindBlocks doc) (None, []).

Definition rebuildCache (w : World) : M State (option error) :=
  Lock ;;
  defer Unlock
    match NewDocument w with
    | inl cause => ret (Some (FetchError cause))
    | inr doc =>
        let '(outerErr, forecasts) := extract doc in
        match outerErr with
        | Some e => ret (Some e)
        | None => set_cache (Some forecasts) ;; ret None
        end
    end.

Definition fetchCache : M State (slice forecast * option error) :=
  RLock ;;
  defer RUnlock
    (c <- get_cache ;;
     match c with
     | None => go GoRebuildCache ;; ret (None, Some CacheEmpty)
     | Some _ => ret (c, None)
     end).

(** [for range time.Tick(10 * time.Minute) { ... }]: one iteration per
    tick; [ticks] lists what the world answers at each tick that is
    observed.  After [log.Fatalln] nothing more runs. *)
Fixpoint refreshCacheJob (ticks : list World) : M State unit :=
  match ticks with
  | [] => ret tt
  | w :: ticks' =>
      err <- rebuildCache w ;;
      match err with
      | Some e => log_Fatalln (LogRebuildError e)
      | None => log_Println LogRebuildOk ;; refreshCacheJob ticks'
      end
  end.

End part_001.

(* ------------------------------------------------------------------ *)
(** ** Variant that also records when the cache was rebuilt *)

Module part_000.
Import goquery.

Record State := mkState {
  cacheMutex : RWMutex;
  cache : slice forecast;
  cacheTimestamp : Z;            (* [time.Time], zero until first set *)
  goroutines : list goroutine;
  logged : list logLine;
  exited : option Z
}.

Definition init : State := mkState (mkRWMutex false 0) None 0 [] [] None.

Definition with_mutex (f : RWMutex -> option RWMutex) : M State unit :=
  fun s =>
    match f (cacheMutex s) with
    | Some m =>
        Some (mkState m (cache s) (cacheTimestamp s) (goroutines s)
                (logged s) (exited s), tt)
    | None => None
    end.

Definition Lock := with_mutex rw_Lock.
Definition Unlock := with_mutex rw_Unlock.
Definition RLock := with_mutex rw_RLock.
Definition RUnlock := with_mutex rw_RUnlock.

Definition get_cache : M State (slice forecast) := fun s => Some (s, cache s).

Definition set_cache (c : slice forecast) : M State unit := fun s =>
  Some (mkState (cacheMutex s) c (cacheTimestamp s) (goroutines s)
          (logged s) (exited s), tt).

Definition set_cacheTimestamp (t : Z) : M State unit := fun s =>
  Some (mkState (cacheMutex s) (cache s) t (goroutines s) (logged s)
          (exited s), tt).

Definition go (g : goroutine) : M State unit := fun s =>
  Some (mkState (cacheMutex s) (cache s) (cacheTimestamp s)
          (goroutines s ++ [g]) (logged s) (exited s), tt).

Definition log_Println (l : logLine) : M State unit := fun s =>
  Some (mkState (cacheMutex s) (cache s) (cacheTimestamp s) (goroutines s)
          (logged s ++ [l]) (exited s), tt).

Definition log_Fatalln (l : logLine) : M State unit := fun s =>
  Some (mkState (cacheMutex s) (cache s) (cacheTimestamp s) (goroutines s)
          (logged s ++ [l]) (Some 1), tt).

Definition eachRow (acc : option error * list forecastValue) (sel : node)
  : option error * list forecastValue :=
  let '(err, forecastValues) := acc in
  if is_err err || negb (Length (Find "td" sel) =? 2) then acc
  else
    let strValue := Text (Last (Find "td" sel)) in
    let '(value, err) :=
      if negb (strValue =? "-")%string then
        let '(value, innerErr) := strconv.Atoi strValue in
        match innerErr with
        | Some ie => (value, Some (ParseError strValue ie))
        | None => (value, err)
        end
      else (0, err) in
    (err,
     forecastValues
       ++ [mkForecastValue (Text (First (Find "td" sel))) value]).

Definition eachBlock (acc : option error * list forecast) (selection : node)
  : option error * list forecast :=
  let '(outerErr, forecasts) := acc in
  if is_err outerErr then acc
  else
    let cityName := Text (First (Find "tr" selection)) in
    let forecastText := Text (Last (Find "tr" selection)) in
    let '(err, forecastValues) :=
      fold_left eachRow (Find "tr" selection) (None, []) in
    match err with
    | Some e => (Some e, forecasts)
    | None =>
        (None, forecasts ++ [mkForecast cityName forecastText forecastValues])
    end.

(** Lines 122 to 173 of [rebuildCache]. *)
Definition extract (doc : Document) : option error * list forecast :=
  fold_left eachBlock (FindBlocks doc) (None, []).

Definition rebuildCache (w : World) : M State (option error) :=
  Lock ;;
  defer Unlock
    match NewDocument w with
    | inl cause => ret (Some (FetchError cause))
    | inr doc =>
        let '(outerErr, forecasts) := extract doc in
        match outerErr with
        | Some e => ret (Some e)
        | None =>
            set_cache (Some forecasts) ;;
            set_cacheTimestamp (Now w) ;;
            ret None
        end
    end.

Definition fetchCache : M State (slice forecast * option error) :=
  RLock ;;
  defer RUnlock
    (c <- get_cache ;;
     match c with
     | None => go GoRebuildCache ;; ret (None, Some CacheEmpty)
     | Some _ => ret (c, None)
     end).

(** [for { rebuild; log; <-time.Tick(10 * time.Minute) }]: the first
    iteration runs at once on [w], each later one after a tick. *)
Fixpoint refreshCacheJob (ticks : list World) (w : World) {struct ticks}
  : M State unit :=
  err <- rebuildCache w ;;
  match err with
  | Some e => log_Fatalln (LogRebuildError e)
  | None =>
      log_Println LogRebuildOk ;;
      match ticks with
      | [] => ret tt
      | w' :: ticks' => refreshCacheJob ticks' w'
      end
  end.

End part_000.

(* ------------------------------------------------------------------ *)
(** ** A sample document *)

Module sample.
Import goquery.

Definition td (s : string) : node := Element "td" [] [TextNode s].
Definition tr (cells : list node) : node := Element "tr" [] cells.
Definition row2 (a b : string) : node := tr [td a; td b].

(** [<div class="tx-dmi-data-store"><table><tr><td> blocks </td></tr></table></div>] *)
Definition page (blocks : list node) : Document :=
  [Element "html" []
     [Element "body" []
        [Element "div" ["tx-dmi-data-store"]
           [Element "table" [] [tr [Element "td" [] blocks]]]]]].

Definition block (rows : list node) : node := Element "table" [] rows.

(** City row, two measurement rows, and a closing row with [footer]. *)
Definition aarhus (footer : string) : node :=
  block [tr [Element "th" [] [TextNode "Aarhus"]];
         row2 "Birk" "12"; row2 "El" "-";
         tr [Element "td" [] [TextNode footer]]].

(** A block whose two measurement rows both carry an unreadable value. *)
Definition broken_block : node :=
  block [row2 "Birk" "abc"; row2 "El" "zz"].

Definition broken_page : Document :=
  page [aarhus "Moderat"; broken_block; aarhus "Lav"].

(** A page whose only measurement has a value with a minus sign. *)
Definition negative_page : Document := page [block [row2 "Birk" "-5"]].

(** The upstream site cannot be reached; the upstream site answers with
    the Aarhus page. *)
Definition unreachable : World := mkWorld (inl "dial tcp: timeout") 100.
Definition reachable : World := mkWorld (inr (page [aarhus "Moderat"])) 700.

End sample.

(* ------------------------------------------------------------------ *)
(** ** Vocabulary of the specification *)

Module Spec.
Import goquery.

(** The rows of a block, as the program enumerates them. *)
Definition rows (b : node) : list node := Find "tr" b.

(** The cells of a row. *)
Definition cells (r : node) : list node := Find "td" r.

(** A measurement row has exactly two cells. *)
Definition is_measurement_row (r : node) : bool :=
  (List.length (cells r) =? 2)%nat.

Definition measurement_rows (b : node) : list node :=
  filter is_measurement_row (rows b).

(** Text of the first cell, and of the last one (the second, in a
    measurement row). *)
Definition name_text (r : node) : string := Text (First (cells r)).
Definition value_text (r : node) : string := Text (Last (cells r)).

Definition placeholder : string := "-".

(** A value text the extraction accepts. *)
Definition well_formed (s : string) : bool :=
  (s =? placeholder)%string || strconv.valid_base10_int s.

(** A measurement row that makes the extraction fail. *)
Definition bad_row (r : node) : bool :=
  is_measurement_row r && negb (well_formed (value_text r)).

Definition bad_block (b : node) : bool := existsb bad_row (rows b).

(** The first offending row of a sequence of blocks, in document
    order. *)
Definition first_bad_row (blocks : list node) : option node :=
  find bad_row (flat_map rows blocks).

(** The measurement a well-formed row stands for. *)
Definition measurement_of (r : node) : forecastValue :=
  mkForecastValue (name_text r)
    (if (value_text r =? placeholder)%string then 0
     else strconv.base10_value (value_text r)).

(** The record a block stands for. *)
Definition record_of (b : node) : forecast :=
  mkForecast (Text (First (rows b))) (Text (Last (rows b)))
    (map measurement_of (measurement_rows b)).

(** Every measurement value is an integer or the placeholder. *)
Definition valid_document (doc : Document) : Prop :=
  forall b r, In b (FindBlocks doc) -> In r (rows b) ->
              is_measurement_row r = true ->
              well_formed (value_text r) = true.

(** A rebuild fails on [w] with [e]: the fetch fails, or the extraction
    of the fetched document does. *)
Definition rebuild_error (extract : Document -> option error * list forecast)
           (w : World) : option error :=
  match NewDocument w with
  | inl cause => Some (FetchError cause)
  | inr doc => fst (extract doc)
  end.

End Spec.

(* ------------------------------------------------------------------ *)
(** ** Histories of the cache store *)

(** The cache is touched only under its lock, so a history of the
    process is a sequence of whole reads and whole rebuilds, whatever
    triggered them (the refresh job, or a goroutine started by a read). *)
Module History.
Import part_001.

Inductive event :=
| Read
| Rebuild (w : World).

Inductive observation :=
| ReadReturned (r : slice forecast * option error)
| RebuildReturned (e : option error)
| Stuck.

Definition step (st : State) (ev : event) : State * observation :=
  match ev with
  | Read =>
      match fetchCache st with
      | Some (st', r) => (st', ReadReturned r)
      | None => (st, Stuck)
      end
  | Rebuild w =>
      match rebuildCache w st with
      | Some (st', e) => (st', RebuildReturned e)
      | None => (st, Stuck)
      end
  end.

(** Runs a history; the observations are listed oldest first. *)
Fixpoint run (evs : list event) (st : State) : State * list observation :=
  match evs with
  | [] => (st, [])
  | ev :: evs' =>
      let '(st1, o) := step st ev in
      let '(st2, os) := run evs' st1 in
      (st2, o :: os)
  end.

Definition is_success (o : observation) : bool :=
  match o with
  | RebuildReturned None => true
  | _ => false
  end.

(** Some rebuild of the history returned without error. *)
Definition a_rebuild_succeeded (evs : list event) : bool :=
  existsb is_success (snd (run evs init)).

(** What a read returns after the history. *)
Definition read_after (evs : list event) : option (slice forecast * option error) :=
  match fetchCache (fst (run evs init)) with
  | Some (_, r) => Some r
  | None => None
  end.

End History.

(* ------------------------------------------------------------------ *)
(** ** Failure policy of the refresh job *)

Module Policy.

Definition fails_000 (w : World) : Prop :=
  Spec.rebuild_error part_000.extract w <> None.
Definition fails_001 (w : World) : Prop :=
  Spec.rebuild_error part_001.extract w <> None.

(** A failed periodic rebuild terminates the process. *)
Definition fatal_000 : Prop :=
  forall w ticks st,
    rw_free (part_000.cacheMutex st) -> fails_000 w ->
    exists st', part_000.refreshCacheJob ticks w st = Some (st', tt)
                /\ part_000.exited st' = Some 1.

Definition fatal_001 : Prop :=
  forall w ticks st,
    rw_free (part_001.cacheMutex st) -> fails_001 w ->
    exists st', part_001.refreshCacheJob (w :: ticks) st = Some (st', tt)
                /\ part_001.exited st' = Some 1.

(** A failed periodic rebuild is only logged: the process stays alive
    and the job goes on to the next tick. *)
Definition log_and_continue_000 : Prop :=
  forall w w' ticks st,
    rw_free (part_000.cacheMutex st) -> part_000.exited st = None ->
    fails_000 w ->
    (forall st', part_000.refreshCacheJob [] w st = Some (st', tt) ->
                 part_000.exited st' = None)
    /\ part_000.refreshCacheJob (w' :: ticks) w st
       = (part_000.refreshCacheJob [] w ;;
          part_000.refreshCacheJob ticks w') st.

Definition log_and_continue_001 : Prop :=
  forall w ticks st,
    rw_free (part_001.cacheMutex st) -> part_001.exited st = None ->
    fails_001 w ->
    (forall st', part_001.refreshCacheJob [w] st = Some (st', tt) ->
                 part_001.exited st' = None)
    /\ part_001.refreshCacheJob (w :: ticks) st
       = (part_001.refreshCacheJob [w] ;;
          part_001.refreshCacheJob ticks) st.

(** One variant is fatal and the other one logs and continues. *)
Definition divergent_policies : Prop :=
  (fatal_000 /\ log_and_continue_001) \/ (fatal_001 /\ log_and_continue_000).

End Policy.

(* ------------------------------------------------------------------ *)
(** ** The HTTP handlers registered in [main] *)

(** What a gin handler leaves in its context: the calls [c.String],
    [c.JSON], [c.HTML], [c.Header] and [c.AbortWithError] of the three
    [main] functions, each by the status, header and body it sets. *)
Module gin.

(** [t.Format(layout)], kept as the layout and the instant. *)
Record timeText := Format { layout : string; instant : Z }.

Definition RFC3339 : string := "2006-01-02T15:04:05Z07:00".

Inductive body :=
| NoBody
| Plain (err : error)
    (* c.String(code, err.Error()): the text of the error *)
| JSON (output : slice forecast)
    (* c.JSON(code, output) *)
| HTML (name : string) (output : slice forecast) (cacheTimestamp : timeText).
    (* c.HTML(code, name, gin.H{"output": ..., "cacheTimestamp": ...}) *)

Record Response := mkResponse {
  status : Z;
  header : list (string * timeText);
  content : body;
  Errors : list error              (* c.Errors *)
}.

(** [c.AbortWithError(code, err)]: the status is written, the error is
    attached to the context, and no body is written. *)
Definition AbortWithError (code : Z) (err : error) : Response :=
  mkResponse code [] NoBody [err].

End gin.

Module handlers.
Import gin.

(** [main.go], [r.GET("/", ...)] *)
Definition main_go_root (w : World) : M main_go.State Response :=
  r <- main_go.fetchParseAndJsonify w ;;
  let '(output, err) := r in
  match err with
  | Some e => ret (AbortWithError 500 e)
  | None => ret (mkResponse 200 [] (JSON output) [])
  end.

(** The variant without timestamp, [r.GET("/", ...)] *)
Definition part_001_root : M part_001.State Response :=
  r <- part_001.fetchCache ;;
  let '(output, err) := r in
  match err with
  | Some e => ret (mkResponse 500 [] (Plain e) [])
  | None => ret (mkResponse 200 [] (JSON output) [])
  end.

(** The handlers of the variant with timestamp read the global
    [cacheTimestamp] after [fetchCache] has returned. *)
Definition get_cacheTimestamp : M part_000.State Z :=
  fun s => Some (s, part_000.cacheTimestamp s).

(** [r.GET("/", ...)] *)
Definition part_000_root : M part_000.State Response :=
  r <- part_000.fetchCache ;;
  let '(output, err) := r in
  match err with
  | Some e => ret (mkResponse 500 [] (Plain e) [])
  | None =>
      t <- get_cacheTimestamp ;;
      ret (mkResponse 200 [] (HTML "index.html" output (Format "15:04:05" t)) [])
  end.

(** [r.GET("/api", ...)] *)
Definition part_000_api : M part_000.State Response :=
  r <- part_000.fetchCache ;;
  let '(output, err) := r in
  match err with
  | Some e => ret (mkResponse 500 [] (Plain e) [])
  | None =>
      t <- get_cacheTimestamp ;;
      ret (mkResponse 200 [("X-Cache-Timestamp", Format RFC3339 t)]
             (JSON output) [])
  end.

(** [listenAddr, ok := os.LookupEnv("LISTEN_ADDR"); if !ok { ... }] *)
Definition listenAddr (LookupEnv : string -> option string) : string :=
  match LookupEnv "LISTEN_ADDR" with
  | Some addr => addr
  | None => ":8080"
  end.

(** A sequence of requests to [main.go], one answer of the upstream per
    request (consulted or not); [None] marks a request that could not
    run. *)
Fixpoint main_go_serve (ws : list World) (st : main_go.State)
  : main_go.State * list (option Response) :=
  match ws with
  | [] => (st, [])
  | w :: ws' =>
      match main_go_root w st with
      | Some (st1, resp) =>
          let '(st2, resps) := main_go_serve ws' st1 in
          (st2, Some resp :: resps)
      | None =>
          let '(st2, resps) := main_go_serve ws' st in
          (st2, None :: resps)
      end
  end.

End handlers.

(* ------------------------------------------------------------------ *)
(** ** Goroutines started by a read *)

Module Eager.
Import part_001.

(** The scheduler runs the oldest goroutine started by [go
    rebuildCache()]; the value [rebuildCache] returns is dropped, as the
    [go] statement has it.  [None] when there is no goroutine, or when
    the lock is not available. *)
Definition schedule (w : World) : M State unit := fun s =>
  match goroutines s with
  | [] => None
  | GoRebuildCache :: gs =>
      (rebuildCache w ;; ret tt)
        (mkState (cacheMutex s) (cache s) gs (logged s) (exited s))
  end.

End Eager.

(* ------------------------------------------------------------------ *)
(** ** Histories of the variant with timestamp *)

Module History000.
Import part_000.

Definition step (st : State) (ev : History.event) : State * History.observation :=
  match ev with
  | History.Read =>
      match fetchCache st with
      | Some (st', r) => (st', History.ReadReturned r)
      | None => (st, History.Stuck)
      end
  | History.Rebuild w =>
      match rebuildCache w st with
      | Some (st', e) => (st', History.RebuildReturned e)
      | None => (st, History.Stuck)
      end
  end.

Fixpoint run (evs : list History.event) (st : State)
  : State * list History.observation :=
  match evs with
  | [] => (st, [])
  | ev :: evs' =>
      let '(st1, o) := step st ev in
      let '(st2, os) := run evs' st1 in
      (st2, o :: os)
  end.

End History000.

(* ------------------------------------------------------------------ *)
(** ** What a history publishes, in the vocabulary of the specification *)

Module Published.
Import goquery.

(** The snapshot a rebuild on [w] publishes: none when the fetch fails or
    some measurement row is malformed. *)
Definition published (w : World) : slice forecast :=
  match NewDocument w with
  | inl _ => None
  | inr doc =>
      match Spec.first_bad_row (FindBlocks doc) with
      | Some _ => None
      | None => Some (map Spec.record_of (FindBlocks doc))
      end
  end.

(** The snapshot of the latest rebuild of a history that published one,
    [acc] when there is none. *)
Fixpoint last_published (evs : list History.event) (acc : slice forecast)
  : slice forecast :=
  match evs with
  | [] => acc
  | History.Read :: evs' => last_published evs' acc
  | History.Rebuild w :: evs' =>
      last_published evs'
        (match published w with Some fs => Some fs | None => acc end)
  end.

(** The same, with the clock of that rebuild. *)
Fixpoint last_published_at (evs : list History.event)
         (acc : slice forecast * Z) : slice forecast * Z :=
  match evs with
  | [] => acc
  | History.Read :: evs' => last_published_at evs' acc
  | History.Rebuild w :: evs' =>
      last_published_at evs'
        (match published w with Some fs => (Some fs, Now w) | None => acc end)
  end.

Definition is_miss (o : History.observation) : bool :=
  match o with
  | History.ReadReturned (None, Some CacheEmpty) => true
  | _ => false
  end.

(** A [div] of class [tx-dmi-data-store] occurs in the node. *)
Fixpoint has_store_div (n : node) : bool :=
  match n with
  | TextNode _ => false
  | Element t cls children =>
      ((t =? "div")%string
       && existsb (fun c => (c =? "tx-dmi-data-store")%string) cls)
      || (fix go (l : list node) : bool :=
            match l with
            | [] => false
            | c :: l' => has_store_div c || go l'
            end) children
  end.

(** The greatest number of [table] elements on a path from the node
    down. *)
Fixpoint table_depth (n : node) : nat :=
  match n with
  | TextNode _ => O
  | Element t _ children =>
      ((if (t =? "table")%string then 1 else 0)
       + (fix go (l : list node) : nat :=
            match l with
            | [] => O
            | c :: l' => Nat.max (table_depth c) (go l')
            end) children)%nat
  end.

End Published.

(* ================================================================== *)
(** * Proofs *)

(* ------------------------------------------------------------------ *)
(** ** Facts about [strconv] *)

Section StrconvFacts.
Import strconv.

Lemma pow64 : 2 ^ 64 = 18446744073709551616.
Proof. reflexivity. Qed.

Lemma cutoff_val : maxUint64 / 10 + 1 = 1844674407370955162.
Proof. reflexivity. Qed.

Lemma maxVal_val : 2 ^ IntSize - 1 = 18446744073709551615.
Proof. reflexivity. Qed.

Lemma byte_of_bounds (c : ascii) : 0 <= byte_of c < 256.
Proof.
  unfold byte_of. pose proof (N_ascii_bounded c). lia.
Qed.

Lemma is_digit_bounds (c : ascii) :
  is_digit c = true -> 48 <= byte_of c <= 57.
Proof.
  unfold is_digit. intros H. apply andb_true_iff in H as [H1 H2].
  apply Z.leb_le in H1, H2. lia.
Qed.

(** The wrap-around test of the digit loop fires exactly on overflow. *)
Lemma add_digit_wraps (n d : Z) :
  0 <= n < 1844674407370955162 -> 0 <= d <= 9 ->
  ((n * 10 + d) mod 2 ^ 64 <? n * 10)
  || (18446744073709551615 <? (n * 10 + d) mod 2 ^ 64)
  = (2 ^ 64 <=? n * 10 + d).
Proof.
  intros Hn Hd. rewrite pow64.
  destruct (Z_lt_dec (n * 10 + d) 18446744073709551616) as [Hs | Hb].
  - rewrite Z.mod_small by lia.
    destruct (Z.ltb_spec (n * 10 + d) (n * 10));
      destruct (Z.ltb_spec 18446744073709551615 (n * 10 + d));
      destruct (Z.leb_spec 18446744073709551616 (n * 10 + d));
      simpl; lia.
  - assert (Hm : (n * 10 + d) mod 18446744073709551616
                 = n * 10 + d - 18446744073709551616).
    { symmetry. apply (Z.mod_unique _ _ 1); lia. }
    rewrite Hm.
    destruct (Z.ltb_spec (n * 10 + d - 18446744073709551616) (n * 10));
      destruct (Z.leb_spec 18446744073709551616 (n * 10 + d));
      simpl; lia.
Qed.

Lemma digits_value_mono (s : string) :
  forall n, 0 <= n -> all_digits s = true -> n <= digits_value n s.
Proof.
  induction s as [| c s IH]; simpl; intros n Hn Hd; [lia |].
  apply andb_true_iff in Hd as [Hc Hd]. apply is_digit_bounds in Hc.
  specialize (IH (n * 10 + (byte_of c - 48)) ltac:(lia) Hd). lia.
Qed.

Lemma ParseUint_loop_step (c : ascii) (s : string) (n : Z) :
  0 <= n ->
  ParseUint_loop n (String c s)
  = if is_digit c then
      if 2 ^ 64 <=? n * 10 + (byte_of c - 48)
      then (18446744073709551615, Some ErrRange)
      else ParseUint_loop (n * 10 + (byte_of c - 48)) s
    else (0, Some ErrSyntax).
Proof.
  intros Hn. cbn [ParseUint_loop].
  change ((48 <=? byte_of c) && (byte_of c <=? 57)) with (is_digit c).
  destruct (is_digit c) eqn:Hc; [| reflexivity].
  apply is_digit_bounds in Hc.
  rewrite cutoff_val, maxVal_val.
  destruct (Z.leb_spec 1844674407370955162 n) as [Hcut | Hcut].
  - destruct (Z.leb_spec (2 ^ 64) (n * 10 + (byte_of c - 48))) as [E | E];
      [reflexivity |].
    rewrite pow64 in E. lia.
  - rewrite add_digit_wraps by lia.
    destruct (Z.leb_spec (2 ^ 64) (n * 10 + (byte_of c - 48))) as [E | E];
      [reflexivity |].
    rewrite Z.mod_small; [reflexivity |]. lia.
Qed.

Lemma ParseUint_loop_sound (s : string) :
  forall n v, 0 <= n < 2 ^ 64 ->
    ParseUint_loop n s = (v, None) ->
    all_digits s = true /\ v = digits_value n s /\ 0 <= v < 2 ^ 64.
Proof.
  induction s as [| c s IH]; intros n v Hn H.
  - simpl in H. inversion H. subst. simpl. auto.
  - rewrite ParseUint_loop_step in H by lia.
    cbn [all_digits digits_value].
    destruct (is_digit c) eqn:Hc; [| discriminate].
    apply is_digit_bounds in Hc.
    destruct (Z.leb_spec (2 ^ 64) (n * 10 + (byte_of c - 48))) as [E | E];
      [discriminate |].
    destruct (IH (n * 10 + (byte_of c - 48)) v ltac:(lia) H) as (Hd & Hv & Hs).
    repeat split; auto; lia.
Qed.

Lemma ParseUint_loop_complete (s : string) :
  forall n, 0 <= n -> all_digits s = true -> digits_value n s < 2 ^ 64 ->
    ParseUint_loop n s = (digits_value n s, None).
Proof.
  induction s as [| c s IH]; intros n Hn Hd Hv; [reflexivity |].
  rewrite ParseUint_loop_step by assumption.
  cbn [all_digits digits_value] in *.
  apply andb_true_iff in Hd as [Hc Hd]. rewrite Hc.
  apply is_digit_bounds in Hc.
  pose proof (digits_value_mono s (n * 10 + (byte_of c - 48)) ltac:(lia) Hd).
  destruct (Z.leb_spec (2 ^ 64) (n * 10 + (byte_of c - 48))) as [E | E];
    [lia |].
  apply IH; auto; lia.
Qed.

Lemma ParseUint_loop_range (s : string) :
  forall n v, 0 <= n ->
    ParseUint_loop n s = (v, Some ErrRange) -> v = 2 ^ 64 - 1.
Proof.
  induction s as [| c s IH]; intros n v Hn H.
  - discriminate.
  - rewrite ParseUint_loop_step in H by assumption.
    destruct (is_digit c) eqn:Hc; [| discriminate].
    apply is_digit_bounds in Hc.
    destruct (Z.leb_spec (2 ^ 64) (n * 10 + (byte_of c - 48))) as [E | E].
    + inversion H. reflexivity.
    + apply (IH (n * 10 + (byte_of c - 48)) v ltac:(lia) H).
Qed.

Lemma ParseUint_sound (m : string) (un : Z) :
  ParseUint m = (un, None) ->
  m <> "" /\ all_digits m = true /\ un = digits_value 0 m /\ 0 <= un < 2 ^ 64.
Proof.
  destruct m as [| c m]; [discriminate |].
  unfold ParseUint. intros H.
  apply ParseUint_loop_sound in H; [| lia].
  split; [discriminate | exact H].
Qed.

Lemma ParseUint_complete (m : string) :
  m <> "" -> all_digits m = true -> digits_value 0 m < 2 ^ 64 ->
  ParseUint m = (digits_value 0 m, None).
Proof.
  destruct m as [| c m]; [congruence |].
  intros _ Hd Hv. unfold ParseUint.
  apply ParseUint_loop_complete; auto; lia.
Qed.

Lemma ParseUint_range (m : string) (un : Z) :
  ParseUint m = (un, Some ErrRange) -> un = 2 ^ 64 - 1.
Proof.
  destruct m as [| c m]; [discriminate |].
  unfold ParseUint. apply ParseUint_loop_range. lia.
Qed.

(** [ParseInt] in terms of the sign split. *)
Lemma ParseInt_split (c : ascii) (rest : string) :
  ParseInt (String c rest)
  = let s0 := String c rest in
    let '(neg, m) := split_sign s0 in
    let '(un, err) := ParseUint m in
    match err with
    | Some ErrSyntax => (0, Some (mkNumError s0 ErrSyntax))
    | _ =>
        if negb neg && (2 ^ 63 <=? un) then
          (2 ^ 63 - 1, Some (mkNumError s0 ErrRange))
        else if neg && (2 ^ 63 <? un) then
          (- 2 ^ 63, Some (mkNumError s0 ErrRange))
        else (if neg then - un else un, None)
    end.
Proof.
  unfold ParseInt, split_sign.
  change (2 ^ (IntSize - 1)) with (2 ^ 63).
  destruct (Z.eqb_spec (byte_of c) 45) as [E45 | E45].
  - rewrite orb_true_r. reflexivity.
  - rewrite orb_false_r.
    destruct (byte_of c =? 43); reflexivity.
Qed.

Lemma split_sign_nonneg (s : string) :
  fst (split_sign s) = false -> base10_value s = digits_value 0 (snd (split_sign s)).
Proof.
  unfold base10_value. destruct (split_sign s) as [neg m]. simpl.
  intros ->. reflexivity.
Qed.

(** When [Atoi] reports no error, the text is a valid integer and the
    result is the integer it denotes. *)
Lemma Atoi_sound (s : string) (v : Z) :
  Atoi s = (v, None) -> valid_base10_int s = true /\ v = base10_value s.
Proof.
  unfold Atoi. destruct s as [| c rest]; [discriminate |].
  rewrite ParseInt_split. cbv zeta.
  unfold valid_base10_int, is_base10_syntax, base10_value, minInt, maxInt.
  destruct (split_sign (String c rest)) as [neg m]. cbn [snd].
  destruct (ParseUint m) as [un err] eqn:HP.
  destruct err as [[|] |].
  - discriminate.
  - apply ParseUint_range in HP. subst un.
    destruct neg; simpl; discriminate.
  - apply ParseUint_sound in HP as (Hne & Hd & Hv & Hr).
    rewrite Hd. rewrite andb_true_r.
    assert (Hm : negb (m =? "")%string = true).
    { destruct (String.eqb_spec m ""); [contradiction | reflexivity]. }
    rewrite Hm. rewrite <- Hv.
    destruct neg; cbn [negb andb].
    + destruct (Z.ltb_spec (2 ^ 63) un); [discriminate |].
      intros Hr'. inversion Hr'. split; [| reflexivity].
      apply andb_true_iff. split; apply Z.leb_le; lia.
    + destruct (Z.leb_spec (2 ^ 63) un); [discriminate |].
      intros Hr'. inversion Hr'. subst v. split; [| reflexivity].
      apply andb_true_iff. split; apply Z.leb_le; lia.
Qed.

Lemma Atoi_complete (s : string) :
  valid_base10_int s = true -> Atoi s = (base10_value s, None).
Proof.
  unfold Atoi, valid_base10_int, is_base10_syntax, base10_value, minInt, maxInt.
  intros H.
  apply andb_true_iff in H as [H Hmax].
  apply andb_true_iff in H as [H Hmin].
  apply andb_true_iff in H as [Hne Hd].
  apply Z.leb_le in Hmax, Hmin.
  destruct s as [| c rest]; [discriminate |].
  rewrite ParseInt_split. cbv zeta.
  destruct (split_sign (String c rest)) as [neg m]. cbn [snd] in *.
  assert (Hm : m <> "").
  { destruct (String.eqb_spec m ""); [discriminate | assumption]. }
  pose proof (digits_value_mono m 0 ltac:(lia) Hd) as Hpos.
  rewrite ParseUint_complete; auto; [| destruct neg; lia].
  destruct neg; cbn [negb andb].
  - destruct (Z.ltb_spec (2 ^ 63) (digits_value 0 m)); [lia | reflexivity].
  - destruct (Z.leb_spec (2 ^ 63) (digits_value 0 m)); [lia | reflexivity].
Qed.

Lemma Atoi_ok_iff (s : string) :
  snd (Atoi s) = None <-> valid_base10_int s = true.
Proof.
  split.
  - destruct (Atoi s) as [v e] eqn:H. simpl. intros ->.
    apply (Atoi_sound _ _ H).
  - intros H. rewrite (Atoi_complete _ H). reflexivity.
Qed.

(** The error of a failed [Atoi] records the text it was given. *)
Lemma Atoi_error_num (s : string) (v : Z) (e : NumError) :
  Atoi s = (v, Some e) -> Num e = s.
Proof.
  unfold Atoi. destruct s as [| c rest].
  - simpl. intros H. inversion H. reflexivity.
  - rewrite ParseInt_split. cbv zeta.
    destruct (split_sign (String c rest)) as [neg m].
    destruct (ParseUint m) as [un err].
    destruct err as [[|] |];
      repeat match goal with
             | |- context [if ?b then _ else _] => destruct b
             end;
      intros H; inversion H; reflexivity.
Qed.

End StrconvFacts.

(* ------------------------------------------------------------------ *)
(** ** The three copies of the extraction *)

Lemma eachRow_000_001 : part_000.eachRow = part_001.eachRow.
Proof. reflexivity. Qed.

Lemma eachRow_main_001 : main_go.eachRow = part_001.eachRow.
Proof. reflexivity. Qed.

Lemma extract_000_001 (doc : goquery.Document) :
  part_000.extract doc = part_001.extract doc.
Proof. reflexivity. Qed.

Lemma extract_main_001 (doc : goquery.Document) :
  main_go.extract doc = part_001.extract doc.
Proof. reflexivity. Qed.

(* ------------------------------------------------------------------ *)
(** ** The row loop *)

Section RowLoop.
Import goquery Spec part_001.

Lemma Length_is_2 (r : node) :
  (Length (Find "td" r) =? 2) = is_measurement_row r.
Proof.
  unfold Length, is_measurement_row, cells.
  destruct (Nat.eqb_spec (List.length (Find "td" r)) 2) as [E | E].
  - rewrite E. reflexivity.
  - apply Z.eqb_neq. lia.
Qed.

Lemma eachRow_after_error (e : error) (vs : list forecastValue) (r : node) :
  eachRow (Some e, vs) r = (Some e, vs).
Proof. reflexivity. Qed.

Lemma rows_after_error (rs : list node) (e : error) (vs : list forecastValue) :
  fold_left eachRow rs (Some e, vs) = (Some e, vs).
Proof. induction rs as [| r rs IH]; [reflexivity | exact IH]. Qed.

Lemma eachRow_skipped (vs : list forecastValue) (r : node) :
  is_measurement_row r = false -> eachRow (None, vs) r = (None, vs).
Proof.
  intros H. unfold eachRow. rewrite Length_is_2, H. reflexivity.
Qed.

Lemma eachRow_measured (vs : list forecastValue) (r : node) :
  is_measurement_row r = true -> well_formed (value_text r) = true ->
  eachRow (None, vs) r = (None, vs ++ [measurement_of r]).
Proof.
  intros Hm Hw. unfold eachRow. rewrite Length_is_2, Hm. cbn [is_err negb orb].
  unfold measurement_of, name_text. fold (cells r). fold (value_text r).
  unfold well_formed, placeholder in *.
  destruct (value_text r =? "-")%string eqn:E; cbn [negb].
  - reflexivity.
  - simpl in Hw. rewrite (Atoi_complete _ Hw). reflexivity.
Qed.

Lemma eachRow_failed (vs : list forecastValue) (r : node) :
  bad_row r = true ->
  exists ie vs',
    eachRow (None, vs) r = (Some (ParseError (value_text r) ie), vs')
    /\ strconv.Num ie = value_text r.
Proof.
  unfold bad_row. intros H. apply andb_true_iff in H as [Hm Hw].
  apply negb_true_iff in Hw.
  unfold eachRow. rewrite Length_is_2, Hm. cbn [is_err negb orb].
  fold (cells r). fold (value_text r).
  unfold well_formed, placeholder in Hw.
  apply orb_false_iff in Hw as [Hp Hv]. rewrite Hp. cbn [negb].
  destruct (strconv.Atoi (value_text r)) as [v [ie |]] eqn:HA.
  - exists ie. eexists. split; [reflexivity |].
    apply (Atoi_error_num _ _ _ HA).
  - apply Atoi_sound in HA. destruct HA as [HA _]. congruence.
Qed.

Lemma eachRow_good (vs : list forecastValue) (r : node) :
  bad_row r = false ->
  eachRow (None, vs) r
  = (None, vs ++ map measurement_of (filter is_measurement_row [r])).
Proof.
  unfold bad_row. intros H. cbn [filter].
  destruct (is_measurement_row r) eqn:Hm.
  - simpl in H. apply negb_false_iff in H.
    apply eachRow_measured; assumption.
  - rewrite eachRow_skipped by assumption. simpl. now rewrite app_nil_r.
Qed.

Lemma rows_all_good (rs : list node) :
  forall vs, existsb bad_row rs = false ->
    fold_left eachRow rs (None, vs)
    = (None, vs ++ map measurement_of (filter is_measurement_row rs)).
Proof.
  induction rs as [| r rs IH]; intros vs H.
  - simpl. now rewrite app_nil_r.
  - cbn [existsb] in H. apply orb_false_iff in H as [Hr Hrs].
    cbn [fold_left]. rewrite (eachRow_good _ _ Hr), (IH _ Hrs).
    rewrite <- app_assoc, <- map_app. f_equal. f_equal. f_equal.
    cbn [filter]. destruct (is_measurement_row r); reflexivity.
Qed.

Lemma rows_first_bad (rs : list node) (r : node) :
  forall vs, find bad_row rs = Some r ->
    exists ie vs',
      fold_left eachRow rs (None, vs) = (Some (ParseError (value_text r) ie), vs')
      /\ strconv.Num ie = value_text r.
Proof.
  induction rs as [| r0 rs IH]; intros vs H; [discriminate |].
  cbn [find] in H. cbn [fold_left].
  destruct (bad_row r0) eqn:Hb.
  - inversion H. subst r0.
    destruct (eachRow_failed vs r Hb) as (ie & vs' & -> & Hn).
    exists ie, vs'. split; [apply rows_after_error | exact Hn].
  - rewrite (eachRow_good _ _ Hb). apply IH. exact H.
Qed.

End RowLoop.

(* ------------------------------------------------------------------ *)
(** ** The block loop *)

Section BlockLoop.
Import goquery Spec part_001.

Lemma find_none_existsb {A} (p : A -> bool) (l : list A) :
  find p l = None <-> existsb p l = false.
Proof.
  induction l as [| a l IH]; simpl; [tauto |].
  destruct (p a); simpl; [split; discriminate | exact IH].
Qed.

Lemma find_app {A} (p : A -> bool) (l1 l2 : list A) :
  find p (l1 ++ l2)
  = match find p l1 with Some a => Some a | None => find p l2 end.
Proof.
  induction l1 as [| a l1 IH]; simpl; [reflexivity |].
  destruct (p a); [reflexivity | exact IH].
Qed.

Lemma blocks_after_error (bs : list node) (e : error) (fs : list forecast) :
  fold_left eachBlock bs (Some e, fs) = (Some e, fs).
Proof. induction bs as [| b bs IH]; [reflexivity | exact IH]. Qed.

Lemma eachBlock_good (fs : list forecast) (b : node) :
  bad_block b = false ->
  eachBlock (None, fs) b = (None, fs ++ [record_of b]).
Proof.
  intros H. unfold eachBlock. cbn [is_err].
  fold (rows b). rewrite (rows_all_good _ [] H). reflexivity.
Qed.

Lemma eachBlock_failed (fs : list forecast) (b r : node) :
  find bad_row (rows b) = Some r ->
  exists ie,
    eachBlock (None, fs) b = (Some (ParseError (value_text r) ie), fs)
    /\ strconv.Num ie = value_text r.
Proof.
  intros H. unfold eachBlock. cbn [is_err]. fold (rows b).
  destruct (rows_first_bad _ _ [] H) as (ie & vs' & -> & Hn).
  exists ie. split; [reflexivity | exact Hn].
Qed.

Lemma blocks_all_good (bs : list node) :
  forall fs, existsb bad_block bs = false ->
    fold_left eachBlock bs (None, fs) = (None, fs ++ map record_of bs).
Proof.
  induction bs as [| b bs IH]; intros fs H.
  - simpl. now rewrite app_nil_r.
  - cbn [existsb] in H. apply orb_false_iff in H as [Hb Hbs].
    cbn [fold_left]. rewrite (eachBlock_good _ _ Hb), (IH _ Hbs).
    now rewrite <- app_assoc.
Qed.

Lemma blocks_first_bad (bs : list node) (r : node) :
  forall fs, first_bad_row bs = Some r ->
    exists ie fs',
      fold_left eachBlock bs (None, fs)
      = (Some (ParseError (value_text r) ie), fs')
      /\ strconv.Num ie = value_text r.
Proof.
  unfold first_bad_row.
  induction bs as [| b bs IH]; intros fs H; [discriminate |].
  cbn [flat_map] in H. rewrite find_app in H. cbn [fold_left].
  destruct (find bad_row (rows b)) as [r0 |] eqn:Hb.
  - inversion H. subst r0.
    destruct (eachBlock_failed fs b r Hb) as (ie & -> & Hn).
    exists ie, fs. split; [apply blocks_after_error | exact Hn].
  - apply find_none_existsb in Hb.
    rewrite (eachBlock_good _ _ Hb). apply IH. exact H.
Qed.

Lemma first_bad_none (bs : list node) :
  first_bad_row bs = None <-> existsb bad_block bs = false.
Proof.
  unfold first_bad_row.
  induction bs as [| b bs IH]; simpl; [tauto |].
  rewrite find_app, orb_false_iff.
  destruct (find bad_row (rows b)) eqn:Hb.
  - split; [discriminate |]. intros [H _].
    apply find_none_existsb in H. unfold bad_block in *. congruence.
  - apply find_none_existsb in Hb. unfold bad_block at 1. tauto.
Qed.

(** The extraction, in one equation. *)
Lemma extract_ok (doc : Document) :
  first_bad_row (FindBlocks doc) = None ->
  extract doc = (None, map record_of (FindBlocks doc)).
Proof.
  intros H. apply first_bad_none in H. unfold extract.
  now rewrite blocks_all_good.
Qed.

Lemma extract_fails (doc : Document) (r : node) :
  first_bad_row (FindBlocks doc) = Some r ->
  exists ie, fst (extract doc) = Some (ParseError (value_text r) ie)
             /\ strconv.Num ie = value_text r.
Proof.
  intros H. unfold extract.
  destruct (blocks_first_bad _ _ [] H) as (ie & fs' & -> & Hn).
  exists ie. split; [reflexivity | exact Hn].
Qed.

Lemma first_bad_In (bs : list node) (r : node) :
  first_bad_row bs = Some r ->
  bad_row r = true /\ exists b, In b bs /\ In r (rows b).
Proof.
  unfold first_bad_row. intros H. apply find_some in H as [Hin Hb].
  split; [exact Hb |]. apply in_flat_map in Hin. exact Hin.
Qed.

Lemma valid_document_no_bad (doc : Document) :
  valid_document doc <-> first_bad_row (FindBlocks doc) = None.
Proof.
  split.
  - intros Hv. destruct (first_bad_row (FindBlocks doc)) as [r |] eqn:H;
      [| reflexivity].
    apply first_bad_In in H as (Hb & b & Hin & Hr).
    unfold bad_row in Hb. apply andb_true_iff in Hb as [Hm Hw].
    rewrite (Hv b r Hin Hr Hm) in Hw. discriminate.
  - intros H b r Hb Hr Hm.
    unfold first_bad_row in H.
    pose proof (find_none _ _ H r) as Hn.
    assert (Hin : In r (flat_map rows (FindBlocks doc)))
      by (apply in_flat_map; eauto).
    specialize (Hn Hin). unfold bad_row in Hn. rewrite Hm in Hn.
    simpl in Hn. now apply negb_false_iff in Hn.
Qed.

End BlockLoop.

(* ------------------------------------------------------------------ *)
(** ** Selections *)

Section Selections.
Import goquery Spec.

Lemma append_empty_r (s : string) : (s ++ "")%string = s.
Proof. induction s as [| c s IH]; simpl; [reflexivity | now rewrite IH]. Qed.

Lemma Text_one (n : node) : Text [n] = node_text n.
Proof. unfold Text. simpl. apply append_empty_r. Qed.

Lemma Text_First (n : node) (l : list node) :
  Text (First (n :: l)) = node_text n.
Proof. apply Text_one. Qed.

Lemma last_nonempty {A} (l : list A) :
  forall a d1 d2, last (a :: l) d1 = last (a :: l) d2.
Proof.
  induction l as [| b l IH]; intros a d1 d2; [reflexivity |].
  change (last (a :: b :: l) d1) with (last (b :: l) d1).
  change (last (a :: b :: l) d2) with (last (b :: l) d2).
  apply IH.
Qed.

Lemma Text_Last (n : node) (l : list node) :
  Text (Last (n :: l)) = node_text (last (n :: l) n).
Proof.
  unfold Last. rewrite Text_one. f_equal. apply last_nonempty.
Qed.

(** In a measurement row the name is the text of the first cell and
    the value text that of the second. *)
Lemma measurement_row_cells (r : node) :
  is_measurement_row r = true ->
  exists c1 c2, cells r = [c1; c2]
                /\ name_text r = node_text c1
                /\ value_text r = node_text c2.
Proof.
  unfold is_measurement_row, name_text, value_text.
  destruct (cells r) as [| c1 [| c2 [| c3 l]]]; try discriminate.
  intros _. exists c1, c2. repeat split; apply Text_one.
Qed.

End Selections.

(* ------------------------------------------------------------------ *)
(** ** The cache operations, in closed form *)

Section CacheOps.

Lemma rebuildCache_001 (w : World) (st : part_001.State) :
  rw_free (part_001.cacheMutex st) ->
  part_001.rebuildCache w st
  = Some
      match NewDocument w with
      | inl cause => (st, Some (FetchError cause))
      | inr doc =>
          match part_001.extract doc with
          | (Some e, _) => (st, Some e)
          | (None, forecasts) =>
              (part_001.mkState (part_001.cacheMutex st) (Some forecasts)
                 (part_001.goroutines st) (part_001.logged st)
                 (part_001.exited st), None)
          end
      end.
Proof.
  destruct st as [[wr rd] c g l x]. unfold rw_free. simpl.
  intros [-> ->].
  unfold part_001.rebuildCache, defer, bind, part_001.Lock, part_001.Unlock,
    part_001.with_mutex, part_001.set_cache, ret. simpl.
  destruct (NewDocument w) as [cause | doc]; [reflexivity |].
  destruct (part_001.extract doc) as [[e |] fs]; reflexivity.
Qed.

Lemma rebuildCache_000 (w : World) (st : part_000.State) :
  rw_free (part_000.cacheMutex st) ->
  part_000.rebuildCache w st
  = Some
      match NewDocument w with
      | inl cause => (st, Some (FetchError cause))
      | inr doc =>
          match part_000.extract doc with
          | (Some e, _) => (st, Some e)
          | (None, forecasts) =>
              (part_000.mkState (part_000.cacheMutex st) (Some forecasts)
                 (Now w) (part_000.goroutines st) (part_000.logged st)
                 (part_000.exited st), None)
          end
      end.
Proof.
  destruct st as [[wr rd] c t g l x]. unfold rw_free. simpl.
  intros [-> ->].
  unfold part_000.rebuildCache, defer, bind, part_000.Lock, part_000.Unlock,
    part_000.with_mutex, part_000.set_cache, part_000.set_cacheTimestamp, ret.
  simpl.
  destruct (NewDocument w) as [cause | doc]; [reflexivity |].
  destruct (part_000.extract doc) as [[e |] fs]; reflexivity.
Qed.

Lemma fetchCache_001 (st : part_001.State) :
  writer (part_001.cacheMutex st) = false ->
  part_001.fetchCache st
  = Some
      match part_001.cache st with
      | None =>
          (part_001.mkState (part_001.cacheMutex st) None
             (part_001.goroutines st ++ [GoRebuildCache])
             (part_001.logged st) (part_001.exited st),
           (None, Some CacheEmpty))
      | Some forecasts => (st, (Some forecasts, None))
      end.
Proof.
  destruct st as [[wr rd] c g l x]. simpl. intros ->.
  unfold part_001.fetchCache, defer, bind, part_001.RLock, part_001.RUnlock,
    part_001.with_mutex, part_001.get_cache, part_001.go, ret. simpl.
  destruct c; reflexivity.
Qed.

Lemma fetchCache_000 (st : part_000.State) :
  writer (part_000.cacheMutex st) = false ->
  part_000.fetchCache st
  = Some
      match part_000.cache st with
      | None =>
          (part_000.mkState (part_000.cacheMutex st) None
             (part_000.cacheTimestamp st)
             (part_000.goroutines st ++ [GoRebuildCache])
             (part_000.logged st) (part_000.exited st),
           (None, Some CacheEmpty))
      | Some forecasts => (st, (Some forecasts, None))
      end.
Proof.
  destruct st as [[wr rd] c t g l x]. simpl. intros ->.
  unfold part_000.fetchCache, defer, bind, part_000.RLock, part_000.RUnlock,
    part_000.with_mutex, part_000.get_cache, part_000.go, ret. simpl.
  destruct c; reflexivity.
Qed.

Lemma fetchParseAndJsonify_miss (w : World) (st : main_go.State) :
  locked (main_go.cacheMutex st) = false -> main_go.cache st = None ->
  main_go.fetchParseAndJsonify w st
  = Some
      match NewDocument w with
      | inl cause => (st, (None, Some (FetchError cause)))
      | inr doc =>
          match main_go.extract doc with
          | (Some e, _) => (st, (None, Some e))
          | (None, forecasts) =>
              (main_go.mkState (main_go.cacheMutex st) (Some forecasts),
               (Some forecasts, None))
          end
      end.
Proof.
  destruct st as [[lk] c]. simpl. intros -> ->.
  unfold main_go.fetchParseAndJsonify, bind, main_go.Lock, main_go.Unlock,
    main_go.get_cache, main_go.set_cache, ret. simpl.
  destruct (NewDocument w) as [cause | doc]; [reflexivity |].
  destruct (main_go.extract doc) as [[e |] fs]; reflexivity.
Qed.

Lemma fetchParseAndJsonify_hit (w : World) (st : main_go.State)
      (forecasts : list forecast) :
  locked (main_go.cacheMutex st) = false ->
  main_go.cache st = Some forecasts ->
  main_go.fetchParseAndJsonify w st = Some (st, (Some forecasts, None)).
Proof.
  destruct st as [[lk] c]. simpl. intros -> ->. reflexivity.
Qed.

End CacheOps.

(* ------------------------------------------------------------------ *)
(** ** Properties of the extraction *)

Section ExtractionProperties.
Import goquery Spec.

(** C1.  When some measurement row of the document has a value text
    that is neither the placeholder nor a valid base-10 integer, the
    extraction fails with the parse error that carries the value text
    of the first such row, and nothing is produced: [main.go] returns a
    nil slice with the error, [rebuildCache] returns the error, and the
    state, cache included, is what it was. *)
Theorem C1_malformed_value_fails_extraction
        (doc : Document) (b r : node) :
  In b (FindBlocks doc) -> In r (rows b) ->
  is_measurement_row r = true ->
  value_text r <> placeholder ->
  strconv.valid_base10_int (value_text r) = false ->
  exists (r0 : node) (ie : strconv.NumError),
    first_bad_row (FindBlocks doc) = Some r0
    /\ bad_row r0 = true
    /\ strconv.Num ie = value_text r0
    /\ fst (main_go.extract doc) = Some (ParseError (value_text r0) ie)
    /\ fst (part_001.extract doc) = Some (ParseError (value_text r0) ie)
    /\ (forall w st,
           NewDocument w = inr doc ->
           locked (main_go.cacheMutex st) = false ->
           main_go.cache st = None ->
           main_go.fetchParseAndJsonify w st
           = Some (st, (None, Some (ParseError (value_text r0) ie))))
    /\ (forall w st,
           NewDocument w = inr doc ->
           rw_free (part_001.cacheMutex st) ->
           part_001.rebuildCache w st
           = Some (st, Some (ParseError (value_text r0) ie))).
Proof.
  intros Hb Hr Hm Hp Hv.
  assert (Hbad : bad_row r = true).
  { unfold bad_row, well_formed. rewrite Hm, Hv.
    destruct (String.eqb_spec (value_text r) placeholder);
      [contradiction | reflexivity]. }
  destruct (first_bad_row (FindBlocks doc)) as [r0 |] eqn:Hf.
  - destruct (first_bad_In _ _ Hf) as [Hb0 _].
    destruct (extract_fails _ _ Hf) as (ie & He & Hn).
    exists r0, ie. repeat split; auto.
    + intros w st Hw Hl Hc.
      rewrite fetchParseAndJsonify_miss, Hw by assumption.
      change (main_go.extract doc) with (part_001.extract doc).
      destruct (part_001.extract doc) as [oe fs]. simpl in He. now subst oe.
    + intros w st Hw Hl.
      rewrite rebuildCache_001, Hw by assumption.
      destruct (part_001.extract doc) as [oe fs]. simpl in He. now subst oe.
  - exfalso. unfold first_bad_row in Hf.
    pose proof (find_none _ _ Hf r) as Hn.
    rewrite Hn in Hbad; [discriminate |].
    apply in_flat_map. eauto.
Qed.

(** C4.  A measurement row with a well-formed value contributes the
    measurement whose name is the text of its first cell and whose
    value is 0 for the placeholder and otherwise the integer its second
    cell denotes, which is what [Atoi] returns; and the Aarhus block
    with rows (Birk, 12) and (El, -) yields the one expected record,
    with the text of its last row as summary. *)
Theorem C4_measurement_of_row
        (r : node) (vs : list forecastValue) (footer : string) :
  is_measurement_row r = true ->
  well_formed (value_text r) = true ->
  (exists c1 c2,
      cells r = [c1; c2]
      /\ part_001.eachRow (None, vs) r
         = (None,
            vs ++ [mkForecastValue (node_text c1)
                     (if (node_text c2 =? "-")%string then 0
                      else strconv.base10_value (node_text c2))])
      /\ main_go.eachRow (None, vs) r = part_001.eachRow (None, vs) r
      /\ ((node_text c2 =? "-")%string = false ->
          strconv.Atoi (node_text c2)
          = (strconv.base10_value (node_text c2), None)))
  /\ part_001.extract (sample.page [sample.aarhus footer])
     = (None,
        [mkForecast "Aarhus" footer
           [mkForecastValue "Birk" 12; mkForecastValue "El" 0]])
  /\ main_go.extract (sample.page [sample.aarhus footer])
     = part_001.extract (sample.page [sample.aarhus footer]).
Proof.
  intros Hm Hw. split; [| split].
  - destruct (measurement_row_cells r Hm) as (c1 & c2 & Hc & Hn & Hv).
    exists c1, c2. split; [exact Hc |].
    rewrite (eachRow_measured vs r Hm Hw).
    unfold measurement_of, placeholder. rewrite Hn, Hv.
    split; [reflexivity | split].
    { rewrite eachRow_main_001, (eachRow_measured vs r Hm Hw).
      unfold measurement_of, placeholder. now rewrite Hn, Hv. }
    intros Hne. apply Atoi_complete.
    unfold well_formed, placeholder in Hw. rewrite Hv, Hne in Hw.
    exact Hw.
  - unfold part_001.extract. cbn.
    rewrite !append_empty_r. reflexivity.
  - reflexivity.
Qed.

Lemma C4_measurement_of_row_witness :
  is_measurement_row (sample.row2 "Birk" "12") = true
  /\ well_formed (value_text (sample.row2 "Birk" "12")) = true
  /\ part_001.eachRow (None, []) (sample.row2 "Birk" "12")
     = (None, [mkForecastValue "Birk" 12]).
Proof.
  split; [reflexivity | split; [reflexivity |]].
  destruct (C4_measurement_of_row (sample.row2 "Birk" "12") [] "Moderat"
              eq_refl eq_refl) as [(c1 & c2 & Hc & He & _) _].
  inversion Hc. subst c1 c2. exact He.
Defined.

(** C5.  On a valid document the extraction succeeds, with one record
    per matching block, in document order; the measurements of each
    record are those of the two-cell rows of its block, in order, so
    their number is the number of these rows, and the other rows
    contribute nothing.  A rebuild publishes exactly this sequence. *)
Theorem C5_one_record_per_block (doc : Document) :
  valid_document doc ->
  part_001.extract doc = (None, map record_of (FindBlocks doc))
  /\ List.length (snd (part_001.extract doc)) = List.length (FindBlocks doc)
  /\ Forall2
       (fun b rec =>
          Values rec = map measurement_of (filter is_measurement_row (rows b))
          /\ List.length (Values rec)
             = List.length (filter is_measurement_row (rows b)))
       (FindBlocks doc) (snd (part_001.extract doc))
  /\ (forall w st,
         NewDocument w = inr doc -> rw_free (part_001.cacheMutex st) ->
         exists st',
           part_001.rebuildCache w st = Some (st', None)
           /\ part_001.cache st' = Some (map record_of (FindBlocks doc))).
Proof.
  intros Hv. apply valid_document_no_bad in Hv.
  pose proof (extract_ok doc Hv) as He.
  split; [exact He |]. rewrite He. cbn [snd].
  split; [apply length_map |]. split.
  - clear He Hv.
    induction (FindBlocks doc) as [| b bs IH];
      [constructor | constructor; [| exact IH]].
    unfold record_of, measurement_rows. cbn [Values].
    split; [reflexivity | apply length_map].
  - intros w st Hw Hl. rewrite rebuildCache_001, Hw, He by assumption.
    eexists. split; reflexivity.
Qed.

Lemma C5_one_record_per_block_witness :
  List.length
    (snd (part_001.extract
            (sample.page [sample.aarhus "Moderat"; sample.block []])))
  = 2%nat.
Proof.
  refine (proj1 (proj2 (C5_one_record_per_block
                          (sample.page [sample.aarhus "Moderat";
                                        sample.block []]) _))).
  apply valid_document_no_bad. reflexivity.
Defined.

(** C6.  The record of a block carries the full text of the block's
    first row as city name and of its last row as summary; a block
    without rows gives the record with two empty strings and no
    measurement, a block without two-cell rows gives a record without
    measurements, and neither is an error. *)
Theorem C6_city_and_summary :
  (forall doc recs,
      part_001.extract doc = (None, recs) ->
      Forall2
        (fun b rec =>
           CityName rec = Text (First (rows b))
           /\ ForecastText rec = Text (Last (rows b))
           /\ (forall r rs, rows b = r :: rs ->
                            CityName rec = node_text r
                            /\ ForecastText rec = node_text (last rs r)))
        (FindBlocks doc) recs)
  /\ (forall b fs,
         rows b = [] ->
         part_001.eachBlock (None, fs) b = (None, fs ++ [mkForecast "" "" []]))
  /\ (forall b fs,
         filter is_measurement_row (rows b) = [] ->
         part_001.eachBlock (None, fs) b
         = (None,
            fs ++ [mkForecast (Text (First (rows b))) (Text (Last (rows b)))
                     []])).
Proof.
  assert (Hnone : forall b, filter is_measurement_row (rows b) = [] ->
                            bad_block b = false).
  { intros b H. unfold bad_block.
    destruct (existsb bad_row (rows b)) eqn:E; [| reflexivity].
    apply existsb_exists in E as (r & Hin & Hb).
    unfold bad_row in Hb. apply andb_true_iff in Hb as [Hm _].
    assert (Hf : In r (filter is_measurement_row (rows b)))
      by (apply filter_In; auto).
    rewrite H in Hf. destruct Hf. }
  split; [| split].
  - intros doc recs He.
    destruct (first_bad_row (FindBlocks doc)) as [r0 |] eqn:Hf.
    + destruct (extract_fails _ _ Hf) as (ie & Hx & _).
      rewrite He in Hx. discriminate.
    + rewrite (extract_ok _ Hf) in He. inversion He. subst recs.
      clear He Hf.
      induction (FindBlocks doc) as [| b bs IH];
        [constructor | constructor; [| exact IH]].
      cbn [record_of CityName ForecastText].
      split; [reflexivity | split; [reflexivity |]].
      intros r rs Hr. rewrite Hr, Text_First, Text_Last.
      split; [reflexivity |]. f_equal.
      destruct rs as [| r' rs]; [reflexivity |].
      change (last (r :: r' :: rs) r) with (last (r' :: rs) r). reflexivity.
  - intros b fs Hr. rewrite eachBlock_good.
    + unfold record_of, measurement_rows. rewrite Hr. reflexivity.
    + apply Hnone. rewrite Hr. reflexivity.
  - intros b fs Hr. rewrite eachBlock_good by (apply Hnone; exact Hr).
    unfold record_of, measurement_rows. rewrite Hr. reflexivity.
Qed.

Lemma C6_city_and_summary_witness :
  part_001.eachBlock (None, []) (sample.block [])
  = (None, [mkForecast "" "" []])
  /\ Forall2
       (fun b rec =>
          CityName rec = Text (First (rows b))
          /\ ForecastText rec = Text (Last (rows b))
          /\ (forall r rs, rows b = r :: rs ->
                           CityName rec = node_text r
                           /\ ForecastText rec = node_text (last rs r)))
       (FindBlocks (sample.page [sample.aarhus "Moderat"]))
       [mkForecast "Aarhus" "Moderat"
          [mkForecastValue "Birk" 12; mkForecastValue "El" 0]].
Proof.
  split.
  - exact (proj1 (proj2 C6_city_and_summary) (sample.block []) [] eq_refl).
  - exact (proj1 C6_city_and_summary
             (sample.page [sample.aarhus "Moderat"]) _ eq_refl).
Defined.

End ExtractionProperties.

Section MoreExtraction.
Import goquery Spec.

Lemma C1_malformed_value_fails_extraction_witness :
  In sample.broken_block (FindBlocks sample.broken_page)
  /\ strconv.valid_base10_int (value_text (sample.row2 "El" "zz")) = false
  /\ exists ie,
      fst (part_001.extract sample.broken_page) = Some (ParseError "abc" ie)
      /\ part_001.rebuildCache (mkWorld (inr sample.broken_page) 0) part_001.init
         = Some (part_001.init, Some (ParseError "abc" ie)).
Proof.
  split; [right; left; reflexivity | split; [reflexivity |]].
  destruct (C1_malformed_value_fails_extraction
              sample.broken_page sample.broken_block (sample.row2 "El" "zz"))
    as (r0 & ie & Hf & _ & _ & _ & He & _ & Hr).
  - right; left; reflexivity.
  - right; left; reflexivity.
  - reflexivity.
  - discriminate.
  - reflexivity.
  - vm_compute in Hf. inversion Hf. subst r0. exists ie.
    split; [exact He |].
    apply Hr; [reflexivity | split; reflexivity].
Defined.

(** C8, as the specification has it, fails: a value text with a minus
    sign is a valid integer for [Atoi], and the record keeps it. *)
Lemma C8_counterexample :
  part_001.extract sample.negative_page
  = (None, [mkForecast "Birk-5" "Birk-5" [mkForecastValue "Birk" (-5)]])
  /\ ~ (forall doc recs,
           part_001.extract doc = (None, recs) ->
           forall rec m, In rec recs -> In m (Values rec) -> 0 <= Value m).
Proof.
  assert (E : part_001.extract sample.negative_page
              = (None, [mkForecast "Birk-5" "Birk-5"
                          [mkForecastValue "Birk" (-5)]]))
    by reflexivity.
  split; [exact E |]. intros H.
  specialize (H _ _ E _ (mkForecastValue "Birk" (-5)) (or_introl eq_refl)
                (or_introl eq_refl)).
  simpl in H. lia.
Qed.

(** C8, amended.  Every measurement of a successful extraction comes
    from a two-cell row of a block; its value is 0 when the second cell
    is the placeholder and otherwise the signed integer that [Atoi]
    reads from it, within the range of [int]; it is negative only when
    that text begins with a minus sign. *)
Theorem C8_value_is_the_parsed_integer
        (doc : Document) (recs : list forecast) :
  part_001.extract doc = (None, recs) ->
  forall rec m, In rec recs -> In m (Values rec) ->
    exists b r,
      In b (FindBlocks doc) /\ In r (rows b)
      /\ is_measurement_row r = true
      /\ Name m = name_text r
      /\ ((value_text r = placeholder /\ Value m = 0)
          \/ (value_text r <> placeholder
              /\ strconv.Atoi (value_text r) = (Value m, None)
              /\ Value m = strconv.base10_value (value_text r)))
      /\ strconv.minInt <= Value m <= strconv.maxInt
      /\ (Value m < 0 -> fst (strconv.split_sign (value_text r)) = true).
Proof.
  intros He rec m Hrec Hm.
  destruct (first_bad_row (FindBlocks doc)) as [r0 |] eqn:Hf.
  { destruct (extract_fails _ _ Hf) as (ie & Hx & _).
    rewrite He in Hx. discriminate. }
  rewrite (extract_ok _ Hf) in He. inversion He. subst recs. clear He.
  apply in_map_iff in Hrec as (b & <- & Hb).
  cbn [record_of Values] in Hm.
  apply in_map_iff in Hm as (r & <- & Hr).
  apply filter_In in Hr as [Hr Hmr].
  exists b, r. split; [exact Hb |]. split; [exact Hr |].
  split; [exact Hmr |]. split; [reflexivity |].
  apply valid_document_no_bad in Hf.
  pose proof (Hf b r Hb Hr Hmr) as Hw.
  unfold well_formed in Hw. unfold measurement_of. cbn [Value].
  destruct (String.eqb_spec (value_text r) placeholder) as [Hp | Hp].
  - split; [left; auto |]. split; [unfold strconv.minInt, strconv.maxInt; lia |].
    intros _. rewrite Hp. reflexivity.
  - simpl in Hw. split.
    + right. split; [exact Hp |]. split; [apply Atoi_complete; exact Hw | reflexivity].
    + unfold strconv.valid_base10_int in Hw.
      apply andb_true_iff in Hw as [Hw Hmax].
      apply andb_true_iff in Hw as [Hsyn Hmin].
      apply Z.leb_le in Hmax, Hmin. split; [lia |].
      unfold strconv.is_base10_syntax in Hsyn.
      apply andb_true_iff in Hsyn as [_ Hd].
      unfold strconv.base10_value.
      destruct (strconv.split_sign (value_text r)) as [neg mag].
      cbn [snd fst] in *. destruct neg; [reflexivity |].
      pose proof (digits_value_mono mag 0 ltac:(lia) Hd). lia.
Qed.

Lemma C8_value_is_the_parsed_integer_witness :
  part_001.extract sample.negative_page
  = (None, [mkForecast "Birk-5" "Birk-5" [mkForecastValue "Birk" (-5)]])
  /\ exists b r,
      In b (FindBlocks sample.negative_page) /\ In r (rows b)
      /\ is_measurement_row r = true
      /\ Name (mkForecastValue "Birk" (-5)) = name_text r
      /\ ((value_text r = placeholder /\ Value (mkForecastValue "Birk" (-5)) = 0)
          \/ (value_text r <> placeholder
              /\ strconv.Atoi (value_text r)
                 = (Value (mkForecastValue "Birk" (-5)), None)
              /\ Value (mkForecastValue "Birk" (-5))
                 = strconv.base10_value (value_text r)))
      /\ strconv.minInt <= Value (mkForecastValue "Birk" (-5)) <= strconv.maxInt
      /\ (Value (mkForecastValue "Birk" (-5)) < 0 ->
          fst (strconv.split_sign (value_text r)) = true).
Proof.
  split; [reflexivity |].
  exact (C8_value_is_the_parsed_integer sample.negative_page _ eq_refl
           _ (mkForecastValue "Birk" (-5)) (or_introl eq_refl)
           (or_introl eq_refl)).
Defined.

(** C10.  The three copies of the extraction compute the same function:
    on every document they give the same records or the same error;
    and so do the functions around them: on a cache miss in [main.go]
    and from free locks in the other two, the same error is returned
    by all three, and on success [main.go] returns the sequence the
    other two store in the cache. *)
Theorem C10_extraction_variants_agree (doc : Document) :
  main_go.extract doc = part_001.extract doc
  /\ part_000.extract doc = part_001.extract doc
  /\ forall w sm s0 s1,
      NewDocument w = inr doc ->
      locked (main_go.cacheMutex sm) = false -> main_go.cache sm = None ->
      rw_free (part_000.cacheMutex s0) -> rw_free (part_001.cacheMutex s1) ->
      exists sm' s0' s1' recs err,
        main_go.fetchParseAndJsonify w sm = Some (sm', (recs, err))
        /\ part_000.rebuildCache w s0 = Some (s0', err)
        /\ part_001.rebuildCache w s1 = Some (s1', err)
        /\ err = fst (part_001.extract doc)
        /\ (err = None ->
            recs = Some (snd (part_001.extract doc))
            /\ main_go.cache sm' = recs
            /\ part_000.cache s0' = recs
            /\ part_001.cache s1' = recs)
        /\ (err <> None ->
            recs = None
            /\ main_go.cache sm' = main_go.cache sm
            /\ part_000.cache s0' = part_000.cache s0
            /\ part_001.cache s1' = part_001.cache s1).
Proof.
  split; [reflexivity | split; [reflexivity |]].
  intros w sm s0 s1 Hw Hlm Hcm Hl0 Hl1.
  rewrite fetchParseAndJsonify_miss, rebuildCache_000, rebuildCache_001, Hw
    by assumption.
  change (main_go.extract doc) with (part_001.extract doc).
  change (part_000.extract doc) with (part_001.extract doc).
  destruct (part_001.extract doc) as [[e |] fs]; cbn [fst snd].
  - exists sm, s0, s1, None, (Some e).
    repeat (split; [reflexivity |]). split; [discriminate |].
    intros _. repeat split; reflexivity.
  - do 3 eexists. exists (Some fs), None.
    repeat (split; [reflexivity |]). split.
    + intros _. repeat split; reflexivity.
    + intros H. contradiction H. reflexivity.
Qed.

Lemma C10_extraction_variants_agree_witness :
  exists sm' s0' s1' recs err,
    main_go.fetchParseAndJsonify (mkWorld (inr sample.broken_page) 0) main_go.init
    = Some (sm', (recs, err))
    /\ part_000.rebuildCache (mkWorld (inr sample.broken_page) 0) part_000.init
       = Some (s0', err)
    /\ part_001.rebuildCache (mkWorld (inr sample.broken_page) 0) part_001.init
       = Some (s1', err)
    /\ err = fst (part_001.extract sample.broken_page).
Proof.
  destruct (proj2 (proj2 (C10_extraction_variants_agree sample.broken_page))
              (mkWorld (inr sample.broken_page) 0) main_go.init part_000.init
              part_001.init eq_refl eq_refl eq_refl
              (conj eq_refl eq_refl) (conj eq_refl eq_refl))
    as (sm' & s0' & s1' & recs & err & H1 & H2 & H3 & H4 & _).
  exists sm', s0', s1', recs, err. auto.
Defined.

End MoreExtraction.

(* ------------------------------------------------------------------ *)
(** ** Properties of the cache store *)

Section CacheProperties.
Import Spec.

(** C2, as the specification has it, fails on [main.go]: there a request
    that finds no snapshot fetches and extracts on the spot, and returns
    the records (or the fetch error), never [CacheEmpty]; the cache is
    already filled when the call returns. *)
Lemma C2_counterexample :
  main_go.fetchParseAndJsonify sample.reachable main_go.init
  = Some (main_go.mkState (mkMutex false)
            (Some [mkForecast "Aarhus" "Moderat"
                     [mkForecastValue "Birk" 12; mkForecastValue "El" 0]]),
          (Some [mkForecast "Aarhus" "Moderat"
                   [mkForecastValue "Birk" 12; mkForecastValue "El" 0]],
           None))
  /\ main_go.fetchParseAndJsonify sample.unreachable main_go.init
     = Some (main_go.init, (None, Some (FetchError "dial tcp: timeout")))
  /\ ~ (forall w st,
           locked (main_go.cacheMutex st) = false ->
           main_go.cache st = None ->
           exists st',
             main_go.fetchParseAndJsonify w st
             = Some (st', (None, Some CacheEmpty))).
Proof.
  split; [reflexivity | split; [reflexivity |]].
  intros H.
  destruct (H sample.unreachable main_go.init eq_refl eq_refl) as [st' Hx].
  discriminate Hx.
Qed.

(** C2, amended.  In the two variants with [fetchCache], a read that
    finds no snapshot starts one rebuild goroutine and returns
    [CacheEmpty] at once: the goroutine is only registered, the cache is
    still empty when the read returns, and the read consults no fetch; a
    read that finds a snapshot returns it and changes nothing.  In
    [main.go] a request that finds a snapshot returns it, and one that
    finds none returns what the fetch and the extraction give. *)
Theorem C2_read_miss_triggers_rebuild :
  (forall st,
      writer (part_001.cacheMutex st) = false ->
      match part_001.cache st with
      | None =>
          exists st',
            part_001.fetchCache st = Some (st', (None, Some CacheEmpty))
            /\ part_001.goroutines st'
               = part_001.goroutines st ++ [GoRebuildCache]
            /\ part_001.cache st' = None
            /\ part_001.cacheMutex st' = part_001.cacheMutex st
            /\ part_001.logged st' = part_001.logged st
            /\ part_001.exited st' = part_001.exited st
      | Some forecasts =>
          part_001.fetchCache st = Some (st, (Some forecasts, None))
      end)
  /\ (forall st,
         writer (part_000.cacheMutex st) = false ->
         match part_000.cache st with
         | None =>
             exists st',
               part_000.fetchCache st = Some (st', (None, Some CacheEmpty))
               /\ part_000.goroutines st'
                  = part_000.goroutines st ++ [GoRebuildCache]
               /\ part_000.cache st' = None
               /\ part_000.cacheTimestamp st' = part_000.cacheTimestamp st
               /\ part_000.cacheMutex st' = part_000.cacheMutex st
               /\ part_000.logged st' = part_000.logged st
               /\ part_000.exited st' = part_000.exited st
         | Some forecasts =>
             part_000.fetchCache st = Some (st, (Some forecasts, None))
         end)
  /\ (forall w st forecasts,
         locked (main_go.cacheMutex st) = false ->
         main_go.cache st = Some forecasts ->
         main_go.fetchParseAndJsonify w st
         = Some (st, (Some forecasts, None)))
  /\ (forall w st,
         locked (main_go.cacheMutex st) = false ->
         main_go.cache st = None ->
         exists st' r,
           main_go.fetchParseAndJsonify w st = Some (st', r)
           /\ snd r = rebuild_error main_go.extract w
           /\ (snd r = None ->
               fst r <> None /\ main_go.cache st' = fst r)
           /\ (snd r <> None -> fst r = None /\ st' = st)).
Proof.
  split; [| split; [| split]]; [intros st Hw | intros st Hw | |].
  - rewrite (fetchCache_001 st Hw).
    destruct (part_001.cache st); [reflexivity |].
    eexists. repeat split; reflexivity.
  - rewrite (fetchCache_000 st Hw).
    destruct (part_000.cache st); [reflexivity |].
    eexists. repeat split; reflexivity.
  - intros w st forecasts. apply fetchParseAndJsonify_hit.
  - intros w st Hl Hc. rewrite (fetchParseAndJsonify_miss w st Hl Hc).
    unfold rebuild_error.
    destruct (NewDocument w) as [cause | doc].
    + do 2 eexists. split; [reflexivity |]. cbn [fst snd].
      split; [reflexivity |]. split; [discriminate | auto].
    + destruct (main_go.extract doc) as [[e |] fs];
        do 2 eexists; (split; [reflexivity |]); cbn [fst snd];
        (split; [reflexivity |]).
      * split; [discriminate | auto].
      * split; [intros _; split; [discriminate | reflexivity] |].
        intros H. contradiction H. reflexivity.
Qed.

Lemma C2_read_miss_triggers_rebuild_witness :
  writer (part_001.cacheMutex part_001.init) = false
  /\ exists st',
      part_001.fetchCache part_001.init
      = Some (st', (None, Some CacheEmpty))
      /\ part_001.goroutines st' = [GoRebuildCache]
      /\ part_001.cache st' = None.
Proof.
  split; [reflexivity |].
  destruct (proj1 C2_read_miss_triggers_rebuild part_001.init eq_refl)
    as (st' & H1 & H2 & H3 & _).
  exists st'. auto.
Defined.

(** C3.  A rebuild whose fetch or extraction fails returns that error,
    with the write lock released and the cache (and, where there is
    one, its timestamp) as before; the read that follows returns the
    earlier snapshot if there was one and [CacheEmpty] if not. *)
Theorem C3_failed_rebuild_keeps_the_cache :
  (forall w st e,
      rw_free (part_001.cacheMutex st) ->
      rebuild_error part_001.extract w = Some e ->
      exists st',
        part_001.rebuildCache w st = Some (st', Some e)
        /\ part_001.cache st' = part_001.cache st
        /\ rw_free (part_001.cacheMutex st')
        /\ match part_001.cache st with
           | Some forecasts =>
               part_001.fetchCache st' = Some (st', (Some forecasts, None))
           | None =>
               exists st'',
                 part_001.fetchCache st' = Some (st'', (None, Some CacheEmpty))
           end)
  /\ (forall w st e,
         rw_free (part_000.cacheMutex st) ->
         rebuild_error part_000.extract w = Some e ->
         exists st',
           part_000.rebuildCache w st = Some (st', Some e)
           /\ part_000.cache st' = part_000.cache st
           /\ part_000.cacheTimestamp st' = part_000.cacheTimestamp st
           /\ rw_free (part_000.cacheMutex st')
           /\ match part_000.cache st with
              | Some forecasts =>
                  part_000.fetchCache st' = Some (st', (Some forecasts, None))
              | None =>
                  exists st'',
                    part_000.fetchCache st'
                    = Some (st'', (None, Some CacheEmpty))
              end).
Proof.
  split; intros w st e Hl He; exists st.
  - assert (Hr : part_001.rebuildCache w st = Some (st, Some e)).
    { rewrite (rebuildCache_001 w st Hl). unfold rebuild_error in He.
      destruct (NewDocument w) as [cause | doc]; [congruence |].
      destruct (part_001.extract doc) as [[e' |] fs]; simpl in He; congruence. }
    repeat (split; [assumption || reflexivity || apply Hl |]).
    rewrite (fetchCache_001 st (proj1 Hl)).
    destruct (part_001.cache st); [reflexivity | eexists; reflexivity].
  - assert (Hr : part_000.rebuildCache w st = Some (st, Some e)).
    { rewrite (rebuildCache_000 w st Hl). unfold rebuild_error in He.
      destruct (NewDocument w) as [cause | doc]; [congruence |].
      destruct (part_000.extract doc) as [[e' |] fs]; simpl in He; congruence. }
    repeat (split; [assumption || reflexivity || apply Hl |]).
    rewrite (fetchCache_000 st (proj1 Hl)).
    destruct (part_000.cache st); [reflexivity | eexists; reflexivity].
Qed.

Lemma C3_failed_rebuild_keeps_the_cache_witness :
  rw_free (part_001.cacheMutex part_001.init)
  /\ rebuild_error part_001.extract sample.unreachable
     = Some (FetchError "dial tcp: timeout")
  /\ exists st',
      part_001.rebuildCache sample.unreachable part_001.init
      = Some (st', Some (FetchError "dial tcp: timeout"))
      /\ part_001.cache st' = None.
Proof.
  split; [split; reflexivity | split; [reflexivity |]].
  destruct (proj1 C3_failed_rebuild_keeps_the_cache sample.unreachable
              part_001.init _ (conj eq_refl eq_refl) eq_refl)
    as (st' & H1 & H2 & _).
  exists st'. auto.
Defined.

End CacheProperties.

(* ------------------------------------------------------------------ *)
(** ** Failure policy of the refresh job *)

Section RefreshJob.
Import Spec Policy.

Lemma job_001_fatal (w : World) (ticks : list World) (st : part_001.State)
      (e : error) :
  rw_free (part_001.cacheMutex st) ->
  rebuild_error part_001.extract w = Some e ->
  part_001.refreshCacheJob (w :: ticks) st
  = Some (part_001.mkState (part_001.cacheMutex st) (part_001.cache st)
            (part_001.goroutines st)
            (part_001.logged st ++ [LogRebuildError e]) (Some 1), tt).
Proof.
  intros Hl He. cbn [part_001.refreshCacheJob]. unfold bind at 1.
  rewrite (rebuildCache_001 w st Hl). unfold rebuild_error in He.
  destruct (NewDocument w) as [cause | doc].
  - inversion He. reflexivity.
  - destruct (part_001.extract doc) as [[e' |] fs]; simpl in He;
      [| discriminate].
    inversion He. reflexivity.
Qed.

Lemma job_000_fatal (w : World) (ticks : list World) (st : part_000.State)
      (e : error) :
  rw_free (part_000.cacheMutex st) ->
  rebuild_error part_000.extract w = Some e ->
  part_000.refreshCacheJob ticks w st
  = Some (part_000.mkState (part_000.cacheMutex st) (part_000.cache st)
            (part_000.cacheTimestamp st) (part_000.goroutines st)
            (part_000.logged st ++ [LogRebuildError e]) (Some 1), tt).
Proof.
  intros Hl He.
  assert (Hstep : forall ts,
             part_000.refreshCacheJob ts w
             = (err <- part_000.rebuildCache w ;;
                match err with
                | Some e => part_000.log_Fatalln (LogRebuildError e)
                | None =>
                    part_000.log_Println LogRebuildOk ;;
                    match ts with
                    | [] => ret tt
                    | w' :: ts' => part_000.refreshCacheJob ts' w'
                    end
                end)) by (intros [| ? ?]; reflexivity).
  rewrite Hstep. unfold bind at 1.
  rewrite (rebuildCache_000 w st Hl). unfold rebuild_error in He.
  destruct (NewDocument w) as [cause | doc].
  - inversion He. reflexivity.
  - destruct (part_000.extract doc) as [[e' |] fs]; simpl in He;
      [| discriminate].
    inversion He. reflexivity.
Qed.

(** C7, as the specification has it, fails: neither variant logs and
    continues.  With an sample.unreachable upstream at one iteration and a
    sample.reachable one at the next tick, both jobs end the process with exit
    code 1 at the first, and the cache is never filled. *)
Lemma C7_counterexample :
  (exists st',
      part_001.refreshCacheJob [sample.unreachable; sample.reachable] part_001.init
      = Some (st', tt)
      /\ part_001.exited st' = Some 1 /\ part_001.cache st' = None)
  /\ (exists st',
         part_000.refreshCacheJob [sample.reachable] sample.unreachable part_000.init
         = Some (st', tt)
         /\ part_000.exited st' = Some 1 /\ part_000.cache st' = None)
  /\ ~ divergent_policies.
Proof.
  split; [eexists; repeat split; reflexivity |].
  split; [eexists; repeat split; reflexivity |].
  intros [[_ H] | [_ H]].
  - destruct (H sample.unreachable [] part_001.init (conj eq_refl eq_refl) eq_refl)
      as [Hx _]; [discriminate |].
    specialize (Hx _ eq_refl). discriminate.
  - destruct (H sample.unreachable sample.reachable [] part_000.init
                (conj eq_refl eq_refl) eq_refl) as [Hx _]; [discriminate |].
    specialize (Hx _ eq_refl). discriminate.
Qed.

(** C7, amended.  In both variants with a refresh job a failed periodic
    rebuild is fatal: the error is logged, the process exits with code
    1, the cache is as before, and the later ticks are never served. *)
Theorem C7_failed_refresh_is_fatal_in_both :
  (forall w ticks st e,
      rw_free (part_000.cacheMutex st) ->
      rebuild_error part_000.extract w = Some e ->
      exists st',
        part_000.refreshCacheJob ticks w st = Some (st', tt)
        /\ part_000.exited st' = Some 1
        /\ part_000.logged st' = part_000.logged st ++ [LogRebuildError e]
        /\ part_000.cache st' = part_000.cache st
        /\ part_000.refreshCacheJob ticks w st
           = part_000.refreshCacheJob [] w st)
  /\ (forall w ticks st e,
         rw_free (part_001.cacheMutex st) ->
         rebuild_error part_001.extract w = Some e ->
         exists st',
           part_001.refreshCacheJob (w :: ticks) st = Some (st', tt)
           /\ part_001.exited st' = Some 1
           /\ part_001.logged st' = part_001.logged st ++ [LogRebuildError e]
           /\ part_001.cache st' = part_001.cache st
           /\ part_001.refreshCacheJob (w :: ticks) st
              = part_001.refreshCacheJob [w] st).
Proof.
  split; intros w ticks st e Hl He.
  - rewrite (job_000_fatal w ticks st e Hl He),
      (job_000_fatal w [] st e Hl He).
    eexists. repeat split; reflexivity.
  - rewrite (job_001_fatal w ticks st e Hl He),
      (job_001_fatal w [] st e Hl He).
    eexists. repeat split; reflexivity.
Qed.

Lemma C7_failed_refresh_is_fatal_in_both_witness :
  rw_free (part_000.cacheMutex part_000.init)
  /\ rebuild_error part_000.extract sample.unreachable
     = Some (FetchError "dial tcp: timeout")
  /\ exists st',
      part_000.refreshCacheJob [sample.reachable] sample.unreachable part_000.init
      = Some (st', tt)
      /\ part_000.exited st' = Some 1.
Proof.
  split; [split; reflexivity | split; [reflexivity |]].
  destruct (proj1 C7_failed_refresh_is_fatal_in_both sample.unreachable [sample.reachable]
              part_000.init _ (conj eq_refl eq_refl) eq_refl)
    as (st' & H1 & H2 & _).
  exists st'. auto.
Defined.

End RefreshJob.

(* ------------------------------------------------------------------ *)
(** ** Histories *)

Section Histories.
Import Spec History.

Lemma step_invariant (st : part_001.State) (ev : event) :
  rw_free (part_001.cacheMutex st) ->
  rw_free (part_001.cacheMutex (fst (step st ev)))
  /\ snd (step st ev) <> Stuck
  /\ (part_001.cache (fst (step st ev)) = None
      <-> part_001.cache st = None /\ is_success (snd (step st ev)) = false).
Proof.
  intros Hl. destruct ev as [| w]; unfold step.
  - rewrite (fetchCache_001 st (proj1 Hl)).
    destruct (part_001.cache st) as [fs |] eqn:Hc; cbn [fst snd is_success].
    + rewrite Hc. repeat split; try apply Hl; try discriminate; tauto.
    + cbn [part_001.cacheMutex part_001.cache].
      repeat split; try apply Hl; try discriminate; tauto.
  - rewrite (rebuildCache_001 w st Hl).
    destruct (NewDocument w) as [cause | doc]; cbn [fst snd is_success].
    + repeat split; try apply Hl; try discriminate; tauto.
    + destruct (part_001.extract doc) as [[e |] fs]; cbn [fst snd is_success].
      * repeat split; try apply Hl; try discriminate; tauto.
      * cbn [part_001.cacheMutex part_001.cache].
        repeat split; try apply Hl; try discriminate.
        intros [_ H]. discriminate.
Qed.

Lemma run_invariant (evs : list event) :
  forall st,
    rw_free (part_001.cacheMutex st) ->
    rw_free (part_001.cacheMutex (fst (run evs st)))
    /\ (part_001.cache (fst (run evs st)) = None
        <-> part_001.cache st = None
            /\ existsb is_success (snd (run evs st)) = false).
Proof.
  induction evs as [| ev evs IH]; intros st Hl.
  - simpl. tauto.
  - cbn [run].
    destruct (step_invariant st ev Hl) as (Hl1 & _ & Hc1).
    destruct (step st ev) as [st1 o]. cbn [fst snd] in *.
    destruct (IH st1 Hl1) as (Hl2 & Hc2).
    destruct (run evs st1) as [st2 os]. cbn [fst snd existsb] in *.
    split; [exact Hl2 |].
    rewrite Hc2, Hc1, orb_false_iff. tauto.
Qed.

Lemma run_reads (fs : list forecast) (st : part_001.State) (k : nat) :
  writer (part_001.cacheMutex st) = false ->
  part_001.cache st = Some fs ->
  run (repeat Read k) st = (st, repeat (ReadReturned (Some fs, None)) k).
Proof.
  intros Hw Hc. induction k as [| k IH]; [reflexivity |].
  cbn [repeat run step]. rewrite (fetchCache_001 st Hw), Hc, IH.
  reflexivity.
Qed.

(** C9.  A successful rebuild of a document without matching block
    stores the empty, non-nil sequence, and the reads that follow
    return it without error.  From process start, and whatever the
    history of reads and rebuilds, a read returns [CacheEmpty] exactly
    when no rebuild of the history has succeeded. *)
Theorem C9_empty_snapshot_is_present :
  (forall w doc st,
      NewDocument w = inr doc -> goquery.FindBlocks doc = [] ->
      rw_free (part_001.cacheMutex st) ->
      exists st',
        part_001.rebuildCache w st = Some (st', None)
        /\ part_001.cache st' = Some []
        /\ part_001.fetchCache st' = Some (st', (Some [], None))
        /\ forall k,
            run (repeat Read k) st'
            = (st', repeat (ReadReturned (Some [], None)) k))
  /\ (forall evs,
         exists r,
           read_after evs = Some r
           /\ (snd r = Some CacheEmpty <-> a_rebuild_succeeded evs = false)
           /\ (fst r = None <-> a_rebuild_succeeded evs = false)).
Proof.
  split.
  - intros w doc st Hw Hb Hl.
    rewrite (rebuildCache_001 w st Hl), Hw.
    unfold part_001.extract. rewrite Hb. cbn [fold_left].
    eexists. split; [reflexivity |]. split; [reflexivity |].
    split.
    + rewrite fetchCache_001; [reflexivity | apply Hl].
    + intros k. apply run_reads; [apply Hl | reflexivity].
  - intros evs. unfold read_after, a_rebuild_succeeded.
    destruct (run_invariant evs part_001.init (conj eq_refl eq_refl))
      as (Hl & Hc).
    rewrite (fetchCache_001 _ (proj1 Hl)).
    destruct (part_001.cache (fst (run evs part_001.init))) as [fs |] eqn:E;
      eexists; (split; [reflexivity |]); cbn [fst snd].
    + split; (split; [discriminate |]); intros H;
        assert (Hn : Some fs = None) by (apply Hc; auto); discriminate.
    + assert (Hx : existsb is_success (snd (run evs part_001.init)) = false)
        by (apply Hc; reflexivity).
      split; split; auto.
Qed.

Lemma C9_empty_snapshot_is_present_witness :
  goquery.FindBlocks (sample.page []) = []
  /\ exists st',
      part_001.rebuildCache (mkWorld (inr (sample.page [])) 0) part_001.init
      = Some (st', None)
      /\ part_001.cache st' = Some []
      /\ part_001.fetchCache st' = Some (st', (Some [], None)).
Proof.
  split; [reflexivity |].
  destruct (proj1 C9_empty_snapshot_is_present
              (mkWorld (inr (sample.page [])) 0) (sample.page [])
              part_001.init eq_refl eq_refl (conj eq_refl eq_refl))
    as (st' & H1 & H2 & H3 & _).
  exists st'. auto.
Defined.

End Histories.

(* ================================================================== *)
(** * Further properties of the program *)

(* ------------------------------------------------------------------ *)
(** ** More on the extraction *)

Section ExtractionLaws.
Import goquery Spec.

Lemma extract_error_iff (doc : Document) :
  fst (part_001.extract doc) = None
  <-> first_bad_row (FindBlocks doc) = None.
Proof.
  split.
  - intros H. destruct (first_bad_row (FindBlocks doc)) as [r |] eqn:Hf;
      [| reflexivity].
    destruct (extract_fails _ _ Hf) as (ie & He & _). congruence.
  - intros H. rewrite (extract_ok _ H). reflexivity.
Qed.

(** X1.  The extraction succeeds exactly on the valid documents: it
    returns no error if and only if every two-cell row of every matched
    block carries the placeholder or a valid integer; and then its
    result is the sequence of the blocks' records. *)
Theorem X1_extract_succeeds_iff_valid (doc : Document) :
  (fst (part_001.extract doc) = None <-> valid_document doc)
  /\ (fst (part_001.extract doc) = None ->
      snd (part_001.extract doc) = map record_of (FindBlocks doc)).
Proof.
  split.
  - rewrite extract_error_iff. symmetry. apply valid_document_no_bad.
  - intros H. apply extract_error_iff in H. rewrite (extract_ok _ H).
    reflexivity.
Qed.

Lemma X1_extract_succeeds_iff_valid_witness :
  fst (part_001.extract (sample.page [sample.aarhus "Moderat"])) = None
  /\ snd (part_001.extract (sample.page [sample.aarhus "Moderat"]))
     = [mkForecast "Aarhus" "Moderat"
          [mkForecastValue "Birk" 12; mkForecastValue "El" 0]].
Proof.
  split; [reflexivity |].
  exact (proj2 (X1_extract_succeeds_iff_valid
                  (sample.page [sample.aarhus "Moderat"])) eq_refl).
Defined.

Lemma blocks_app (bs1 bs2 : list node) (acc : option error * list forecast) :
  fold_left part_001.eachBlock (bs1 ++ bs2) acc
  = fold_left part_001.eachBlock bs2 (fold_left part_001.eachBlock bs1 acc).
Proof. apply fold_left_app. Qed.

Lemma eachBlock_from (b : node) (fs : list forecast) :
  part_001.eachBlock (None, fs) b
  = (fst (part_001.eachBlock (None, []) b),
     fs ++ snd (part_001.eachBlock (None, []) b)).
Proof.
  unfold part_001.eachBlock. cbn [is_err].
  destruct (fold_left part_001.eachRow (Find "tr" b) (None, []))
    as [[e |] vs]; cbn [fst snd app]; [now rewrite app_nil_r | reflexivity].
Qed.

Lemma blocks_from (bs : list node) :
  forall fs,
    fold_left part_001.eachBlock bs (None, fs)
    = (fst (fold_left part_001.eachBlock bs (None, [])),
       fs ++ snd (fold_left part_001.eachBlock bs (None, []))).
Proof.
  induction bs as [| b bs IH]; intros fs.
  - simpl. now rewrite app_nil_r.
  - cbn [fold_left]. rewrite (eachBlock_from b fs).
    destruct (part_001.eachBlock (None, []) b) as [[e |] fs1]; cbn [fst snd].
    + now rewrite !blocks_after_error.
    + rewrite (IH (fs ++ fs1)), (IH fs1). cbn [fst snd].
      now rewrite <- app_assoc.
Qed.

(** X2.  The extraction composes over the concatenation of documents:
    when the first part fails, what follows is never looked at and the
    result is that of the first part; when it succeeds, the records of
    the second part follow those of the first, and the error is that of
    the second part. *)
Theorem X2_extract_of_concatenation (d1 d2 : Document) :
  part_001.extract (d1 ++ d2)
  = match fst (part_001.extract d1) with
    | Some e => part_001.extract d1
    | None =>
        (fst (part_001.extract d2),
         snd (part_001.extract d1) ++ snd (part_001.extract d2))
    end.
Proof.
  unfold part_001.extract, FindBlocks. rewrite flat_map_app, blocks_app.
  destruct (fold_left part_001.eachBlock
              (flat_map (find_blocks false false) d1) (None, []))
    as [[e |] fs] eqn:H1; cbn [fst snd].
  - apply blocks_after_error.
  - apply blocks_from.
Qed.

End ExtractionLaws.

(* ------------------------------------------------------------------ *)
(** ** The block selector *)

Section Selector.
Import goquery Spec Published.

Lemma node_nested_ind (P : node -> Prop) :
  (forall data, P (TextNode data)) ->
  (forall tag cls children, Forall P children -> P (Element tag cls children)) ->
  forall n, P n.
Proof.
  intros HT HE. fix IH 1. intros [data | tag cls children].
  - apply HT.
  - apply HE. induction children as [| c children IHc]; constructor.
    + apply IH.
    + exact IHc.
Qed.

Lemma find_blocks_Element (inDiv inTable : bool) (t : string)
      (cls : list string) (children : list node) :
  find_blocks inDiv inTable (Element t cls children)
  = (if (t =? "table")%string && inTable then [Element t cls children] else [])
    ++ flat_map
         (find_blocks
            (inDiv
             || (t =? "div")%string
                && existsb (fun c => (c =? "tx-dmi-data-store")%string) cls)
            (inTable || (t =? "table")%string && inDiv))
         children.
Proof.
  reflexivity.
Qed.

Lemma has_store_div_Element (t : string) (cls : list string)
      (children : list node) :
  has_store_div (Element t cls children)
  = ((t =? "div")%string
     && existsb (fun c => (c =? "tx-dmi-data-store")%string) cls)
    || existsb has_store_div children.
Proof.
  reflexivity.
Qed.

Lemma table_depth_Element (t : string) (cls : list string)
      (children : list node) :
  table_depth (Element t cls children)
  = ((if (t =? "table")%string then 1 else 0)
     + fold_right (fun c acc => Nat.max (table_depth c) acc) 0 children)%nat.
Proof.
  reflexivity.
Qed.

Lemma flat_map_nil {A B} (f : A -> list B) (l : list A) :
  Forall (fun a => f a = []) l -> flat_map f l = [].
Proof.
  induction 1 as [| a l Ha _ IH]; [reflexivity |].
  cbn [flat_map]. now rewrite Ha, IH.
Qed.

(** Without the [div] of the data store there is no block. *)
Lemma no_store_div_no_block (n : node) :
  has_store_div n = false -> find_blocks false false n = [].
Proof.
  induction n as [data | t cls children IH] using node_nested_ind;
    [reflexivity |].
  rewrite has_store_div_Element, find_blocks_Element.
  intros H. apply orb_false_iff in H as [Hd Hc].
  rewrite Hd, andb_false_r. cbn [orb app].
  apply flat_map_nil.
  rewrite Forall_forall in IH. apply Forall_forall. intros c Hin.
  apply IH; [exact Hin |].
  destruct (has_store_div c) eqn:E; [| reflexivity].
  assert (existsb has_store_div children = true)
    by (apply existsb_exists; eauto).
  congruence.
Qed.

Lemma max_le_0 (a b : nat) : (Nat.max a b = 0 -> a = 0 /\ b = 0)%nat.
Proof. lia. Qed.

(** Without any [table] there is no block, whatever the ancestors. *)
Lemma no_table_no_block (n : node) :
  forall inDiv inTable,
    table_depth n = 0%nat -> find_blocks inDiv inTable n = [].
Proof.
  induction n as [data | t cls children IH] using node_nested_ind;
    intros inDiv inTable H; [reflexivity |].
  rewrite table_depth_Element in H. rewrite find_blocks_Element.
  destruct (t =? "table")%string; [discriminate |].
  cbn [andb app]. cbn [Nat.add] in H.
  apply flat_map_nil.
  induction children as [| c children IHc]; constructor.
  - inversion IH as [| ? ? Hc _]. subst. cbn [fold_right] in H.
    apply max_le_0 in H as [H _]. apply Hc. exact H.
  - inversion IH as [| ? ? _ Hcs]. subst. cbn [fold_right] in H.
    apply max_le_0 in H as [_ H]. apply IHc; assumption.
Qed.

(** Tables that are not nested give no block. *)
Lemma flat_tables_no_block (n : node) :
  forall inDiv,
    (table_depth n <= 1)%nat -> find_blocks inDiv false n = [].
Proof.
  induction n as [data | t cls children IH] using node_nested_ind;
    intros inDiv H; [reflexivity |].
  rewrite table_depth_Element in H. rewrite find_blocks_Element.
  rewrite andb_false_r. cbn [app orb].
  apply flat_map_nil.
  destruct (t =? "table")%string.
  - assert (H0 : fold_right (fun c acc => Nat.max (table_depth c) acc) 0%nat
                   children = 0%nat) by lia.
    clear H IH.
    induction children as [| c children IHc]; constructor.
    + cbn [fold_right] in H0. apply max_le_0 in H0 as [H0 _].
      apply no_table_no_block. exact H0.
    + cbn [fold_right] in H0. apply max_le_0 in H0 as [_ H0].
      apply IHc. exact H0.
  - cbn [andb Nat.add] in *.
    induction children as [| c children IHc]; constructor.
    + inversion IH as [| ? ? Hc _]. subst. cbn [fold_right] in H.
      apply Hc. lia.
    + inversion IH as [| ? ? _ Hcs]. subst. cbn [fold_right] in H.
      apply IHc; [assumption | lia].
Qed.

(** X3.  The selector needs a [div] of class [tx-dmi-data-store] and,
    below it, a table within a table.  On a page without that [div], or
    whose tables are not nested, no block matches, the extraction
    succeeds with no record, and a rebuild replaces whatever snapshot
    was cached by the empty one, without error. *)
Theorem X3_changed_markup_empties_the_cache (doc : Document) :
  (forallb (fun n => negb (has_store_div n)) doc = true
   \/ forallb (fun n => (table_depth n <=? 1)%nat) doc = true) ->
  FindBlocks doc = []
  /\ part_001.extract doc = (None, [])
  /\ forall w st,
      NewDocument w = inr doc -> rw_free (part_001.cacheMutex st) ->
      part_001.rebuildCache w st
      = Some (part_001.mkState (part_001.cacheMutex st) (Some [])
                (part_001.goroutines st) (part_001.logged st)
                (part_001.exited st), None).
Proof.
  intros H.
  assert (Hb : FindBlocks doc = []).
  { unfold FindBlocks. apply flat_map_nil. apply Forall_forall. intros n Hin.
    destruct H as [H | H]; rewrite forallb_forall in H; specialize (H n Hin).
    - apply no_store_div_no_block. now apply negb_true_iff in H.
    - apply flat_tables_no_block. now apply Nat.leb_le in H. }
  split; [exact Hb |].
  assert (He : part_001.extract doc = (None, []))
    by (unfold part_001.extract; now rewrite Hb).
  split; [exact He |].
  intros w st Hw Hl. rewrite (rebuildCache_001 w st Hl), Hw, He. reflexivity.
Qed.

End Selector.

(* ------------------------------------------------------------------ *)
(** ** Rebuilds in terms of what they publish *)

Section PublishedFacts.
Import goquery Spec Published.

Lemma published_extract (w : World) :
  match published w with
  | Some fs =>
      exists doc, NewDocument w = inr doc /\ part_001.extract doc = (None, fs)
  | None => rebuild_error part_001.extract w <> None
  end.
Proof.
  unfold published, rebuild_error.
  destruct (NewDocument w) as [cause | doc]; [discriminate |].
  destruct (first_bad_row (FindBlocks doc)) as [r |] eqn:Hf.
  - destruct (extract_fails _ _ Hf) as (ie & -> & _). discriminate.
  - exists doc. split; [reflexivity | apply extract_ok; exact Hf].
Qed.

Lemma published_some_no_error (w : World) (fs : list forecast) :
  published w = Some fs -> rebuild_error part_001.extract w = None.
Proof.
  intros H. pose proof (published_extract w) as Hp. rewrite H in Hp.
  destruct Hp as (doc & Hw & He). unfold rebuild_error. now rewrite Hw, He.
Qed.

Lemma rebuild_published_001 (w : World) (st : part_001.State) :
  rw_free (part_001.cacheMutex st) ->
  part_001.rebuildCache w st
  = Some
      match published w with
      | Some fs =>
          (part_001.mkState (part_001.cacheMutex st) (Some fs)
             (part_001.goroutines st) (part_001.logged st)
             (part_001.exited st), None)
      | None => (st, rebuild_error part_001.extract w)
      end.
Proof.
  intros Hl. rewrite (rebuildCache_001 w st Hl).
  pose proof (published_extract w) as Hp. unfold rebuild_error in *.
  destruct (published w) as [fs |].
  - destruct Hp as (doc & -> & ->). reflexivity.
  - destruct (NewDocument w) as [cause | doc]; [reflexivity |].
    destruct (part_001.extract doc) as [[e |] fs]; [reflexivity |].
    contradiction Hp. reflexivity.
Qed.

Lemma rebuild_published_000 (w : World) (st : part_000.State) :
  rw_free (part_000.cacheMutex st) ->
  part_000.rebuildCache w st
  = Some
      match published w with
      | Some fs =>
          (part_000.mkState (part_000.cacheMutex st) (Some fs) (Now w)
             (part_000.goroutines st) (part_000.logged st)
             (part_000.exited st), None)
      | None => (st, rebuild_error part_000.extract w)
      end.
Proof.
  intros Hl. rewrite (rebuildCache_000 w st Hl).
  pose proof (published_extract w) as Hp. unfold rebuild_error in *.
  change part_000.extract with part_001.extract.
  destruct (published w) as [fs |].
  - destruct Hp as (doc & -> & ->). reflexivity.
  - destruct (NewDocument w) as [cause | doc]; [reflexivity |].
    destruct (part_001.extract doc) as [[e |] fs]; [reflexivity |].
    contradiction Hp. reflexivity.
Qed.

End PublishedFacts.

(* ------------------------------------------------------------------ *)
(** ** Invariants of histories *)

Section HistoryInvariants.
Import Spec Published.

Ltac split_all :=
  repeat match goal with
         | |- rw_free _ => assumption
         | |- Forall _ (_ :: _) => constructor; [discriminate | assumption]
         | |- _ /\ _ => split
         | |- _ => assumption
         end.

(** What a history keeps, for the variant without timestamp: the lock is
    free again, no operation was stuck, nothing was logged, the process
    did not exit, the cache is the latest published snapshot, and one
    goroutine was started per read that missed. *)
Lemma run_001 (evs : list History.event) :
  forall st,
    rw_free (part_001.cacheMutex st) ->
    let st' := fst (History.run evs st) in
    let obs := snd (History.run evs st) in
    rw_free (part_001.cacheMutex st')
    /\ Forall (fun o => o <> History.Stuck) obs
    /\ part_001.cache st' = last_published evs (part_001.cache st)
    /\ part_001.goroutines st'
       = part_001.goroutines st
         ++ repeat GoRebuildCache (List.length (filter is_miss obs))
    /\ part_001.logged st' = part_001.logged st
    /\ part_001.exited st' = part_001.exited st.
Proof.
  induction evs as [| ev evs IH]; intros st Hl.
  - cbn. rewrite app_nil_r. split_all; auto.
  - cbn [History.run]. destruct ev as [| w]; cbn [History.step].
    + rewrite (fetchCache_001 st (proj1 Hl)).
      destruct (part_001.cache st) as [fs |] eqn:Hc.
      * specialize (IH st Hl). cbv zeta in IH.
        destruct (History.run evs st) as [st2 os]. cbn [fst snd] in *.
        destruct IH as (H1 & H2 & H3 & H4 & H5 & H6).
        cbn [last_published filter is_miss]. rewrite Hc in H3.
        split_all.
      * match goal with
        | |- context [History.run evs ?s] =>
            specialize (IH s Hl); cbv zeta in IH;
              destruct (History.run evs s) as [st2 os]
        end.
        cbn [fst snd part_001.cache part_001.goroutines part_001.logged
               part_001.exited] in *.
        destruct IH as (H1 & H2 & H3 & H4 & H5 & H6).
        cbn [last_published filter is_miss length repeat].
        split_all. rewrite H4, <- app_assoc. reflexivity.
    + rewrite (rebuild_published_001 w st Hl). cbn [last_published].
      destruct (published w) as [fs |].
      * match goal with
        | |- context [History.run evs ?s] =>
            specialize (IH s Hl); cbv zeta in IH;
              destruct (History.run evs s) as [st2 os]
        end.
        cbn [fst snd part_001.cache part_001.goroutines part_001.logged
               part_001.exited] in *.
        destruct IH as (H1 & H2 & H3 & H4 & H5 & H6).
        cbn [filter is_miss].
        split_all.
      * specialize (IH st Hl). cbv zeta in IH.
        destruct (History.run evs st) as [st2 os]. cbn [fst snd] in *.
        destruct IH as (H1 & H2 & H3 & H4 & H5 & H6).
        cbn [filter is_miss].
        split_all.
Qed.

(** The same for the variant with timestamp, which moves with the
    cache. *)
Lemma run_000 (evs : list History.event) :
  forall st,
    rw_free (part_000.cacheMutex st) ->
    let st' := fst (History000.run evs st) in
    let obs := snd (History000.run evs st) in
    rw_free (part_000.cacheMutex st')
    /\ Forall (fun o => o <> History.Stuck) obs
    /\ (part_000.cache st', part_000.cacheTimestamp st')
       = last_published_at evs (part_000.cache st, part_000.cacheTimestamp st)
    /\ part_000.goroutines st'
       = part_000.goroutines st
         ++ repeat GoRebuildCache (List.length (filter is_miss obs))
    /\ part_000.logged st' = part_000.logged st
    /\ part_000.exited st' = part_000.exited st.
Proof.
  induction evs as [| ev evs IH]; intros st Hl.
  - cbn. rewrite app_nil_r. split_all; auto.
  - cbn [History000.run]. destruct ev as [| w]; cbn [History000.step].
    + rewrite (fetchCache_000 st (proj1 Hl)).
      destruct (part_000.cache st) as [fs |] eqn:Hc.
      * specialize (IH st Hl). cbv zeta in IH.
        destruct (History000.run evs st) as [st2 os]. cbn [fst snd] in *.
        destruct IH as (H1 & H2 & H3 & H4 & H5 & H6).
        cbn [last_published_at filter is_miss]. rewrite Hc in H3.
        split_all.
      * match goal with
        | |- context [History000.run evs ?s] =>
            specialize (IH s Hl); cbv zeta in IH;
              destruct (History000.run evs s) as [st2 os]
        end.
        cbn [fst snd part_000.cache part_000.goroutines part_000.logged
               part_000.exited part_000.cacheTimestamp] in *.
        destruct IH as (H1 & H2 & H3 & H4 & H5 & H6).
        cbn [last_published_at filter is_miss length repeat].
        split_all. rewrite H4, <- app_assoc. reflexivity.
    + rewrite (rebuild_published_000 w st Hl). cbn [last_published_at].
      destruct (published w) as [fs |].
      * match goal with
        | |- context [History000.run evs ?s] =>
            specialize (IH s Hl); cbv zeta in IH;
              destruct (History000.run evs s) as [st2 os]
        end.
        cbn [fst snd part_000.cache part_000.goroutines part_000.logged
               part_000.exited part_000.cacheTimestamp] in *.
        destruct IH as (H1 & H2 & H3 & H4 & H5 & H6).
        cbn [filter is_miss].
        split_all.
      * specialize (IH st Hl). cbv zeta in IH.
        destruct (History000.run evs st) as [st2 os]. cbn [fst snd] in *.
        destruct IH as (H1 & H2 & H3 & H4 & H5 & H6).
        cbn [filter is_miss].
        split_all.
Qed.

End HistoryInvariants.

(* ------------------------------------------------------------------ *)
(** ** The cache over whole histories *)

Section CacheOverHistories.
Import Spec Published.

Lemma free_init_001 : rw_free (part_001.cacheMutex part_001.init).
Proof. split; reflexivity. Qed.

Lemma free_init_000 : rw_free (part_000.cacheMutex part_000.init).
Proof. split; reflexivity. Qed.

(** X4.  The last successful rebuild wins.  After any history of reads
    and rebuilds from process start, the cache holds the records of the
    latest rebuild whose fetch succeeded on a valid document, and is nil
    if there was none: failed rebuilds and reads change nothing, and
    nothing is merged.  In the variant with a timestamp, the timestamp
    is the clock of that same rebuild, and the zero time if there was
    none. *)
Theorem X4_cache_is_the_latest_published (evs : list History.event) :
  part_001.cache (fst (History.run evs part_001.init))
  = last_published evs None
  /\ (part_000.cache (fst (History000.run evs part_000.init)),
      part_000.cacheTimestamp (fst (History000.run evs part_000.init)))
     = last_published_at evs (None, 0).
Proof.
  split.
  - apply (run_001 evs part_001.init free_init_001).
  - apply (run_000 evs part_000.init free_init_000).
Qed.

Lemma run_reads_miss (n : nat) :
  forall st,
    writer (part_001.cacheMutex st) = false -> part_001.cache st = None ->
    History.run (repeat History.Read n) st
    = (part_001.mkState (part_001.cacheMutex st) None
         (part_001.goroutines st ++ repeat GoRebuildCache n)
         (part_001.logged st) (part_001.exited st),
       repeat (History.ReadReturned (None, Some CacheEmpty)) n).
Proof.
  induction n as [| n IH]; intros st Hw Hc.
  - cbn. rewrite app_nil_r. destruct st; cbn in *. now subst.
  - cbn [repeat History.run History.step].
    rewrite (fetchCache_001 st Hw), Hc, IH by reflexivity || exact Hw.
    cbn [part_001.cacheMutex part_001.goroutines part_001.logged
           part_001.exited].
    now rewrite <- app_assoc.
Qed.

(** X5.  Every read that misses starts a rebuild goroutine of its own,
    and nothing else does: after any history the goroutines started are
    as many as the reads that returned [CacheEmpty].  In particular [n]
    reads against the empty cache all return [CacheEmpty] and leave [n]
    goroutines, with no coalescing. *)
Theorem X5_one_goroutine_per_miss :
  (forall evs,
      part_001.goroutines (fst (History.run evs part_001.init))
      = repeat GoRebuildCache
          (List.length (filter is_miss (snd (History.run evs part_001.init)))))
  /\ (forall n,
         snd (History.run (repeat History.Read n) part_001.init)
         = repeat (History.ReadReturned (None, Some CacheEmpty)) n
         /\ part_001.goroutines
              (fst (History.run (repeat History.Read n) part_001.init))
            = repeat GoRebuildCache n).
Proof.
  split.
  - intros evs.
    destruct (run_001 evs part_001.init free_init_001)
      as (_ & _ & _ & H & _).
    exact H.
  - intros n. rewrite (run_reads_miss n part_001.init eq_refl eq_refl).
    split; reflexivity.
Qed.

(** X6.  With the operations taken one at a time, no read and no rebuild
    is ever stuck on the lock, each one leaves the lock free, and neither
    writes to the log or ends the process: only the refresh job does. *)
Theorem X6_operations_release_the_lock (evs : list History.event) :
  (Forall (fun o => o <> History.Stuck) (snd (History.run evs part_001.init))
   /\ rw_free (part_001.cacheMutex (fst (History.run evs part_001.init)))
   /\ part_001.logged (fst (History.run evs part_001.init)) = []
   /\ part_001.exited (fst (History.run evs part_001.init)) = None)
  /\ (Forall (fun o => o <> History.Stuck)
        (snd (History000.run evs part_000.init))
      /\ rw_free (part_000.cacheMutex (fst (History000.run evs part_000.init)))
      /\ part_000.logged (fst (History000.run evs part_000.init)) = []
      /\ part_000.exited (fst (History000.run evs part_000.init)) = None).
Proof.
  split.
  - destruct (run_001 evs part_001.init free_init_001)
      as (H1 & H2 & _ & _ & H5 & H6).
    auto.
  - destruct (run_000 evs part_000.init free_init_000)
      as (H1 & H2 & _ & _ & H5 & H6).
    auto.
Qed.

(** X7.  What a client sees.  After any history, the handler of the
    variant without timestamp answers 200 with the latest published
    records as JSON, or 500 with the text of [CacheEmpty] when nothing
    was published yet; the errors of fetches and extractions never reach
    a client.  The two handlers of the variant with timestamp answer
    alike, the API with the header [X-Cache-Timestamp] only on 200,
    formatted from the clock of the rebuild that published the
    records. *)
Theorem X7_responses_after_a_history (evs : list History.event) :
  (exists st',
      handlers.part_001_root (fst (History.run evs part_001.init))
      = Some (st',
              match last_published evs None with
              | Some fs => gin.mkResponse 200 [] (gin.JSON (Some fs)) []
              | None => gin.mkResponse 500 [] (gin.Plain CacheEmpty) []
              end))
  /\ (exists st',
         handlers.part_000_api (fst (History000.run evs part_000.init))
         = Some (st',
                 match last_published_at evs (None, 0) with
                 | (Some fs, t) =>
                     gin.mkResponse 200
                       [("X-Cache-Timestamp", gin.Format gin.RFC3339 t)]
                       (gin.JSON (Some fs)) []
                 | (None, _) => gin.mkResponse 500 [] (gin.Plain CacheEmpty) []
                 end))
  /\ (exists st',
         handlers.part_000_root (fst (History000.run evs part_000.init))
         = Some (st',
                 match last_published_at evs (None, 0) with
                 | (Some fs, t) =>
                     gin.mkResponse 200 []
                       (gin.HTML "index.html" (Some fs)
                          (gin.Format "15:04:05" t)) []
                 | (None, _) => gin.mkResponse 500 [] (gin.Plain CacheEmpty) []
                 end)).
Proof.
  split; [| split].
  - destruct (run_001 evs part_001.init free_init_001)
      as (Hl & _ & Hc & _).
    cbn [part_001.init part_001.cache] in Hc. rewrite <- Hc.
    unfold handlers.part_001_root, bind.
    rewrite (fetchCache_001 _ (proj1 Hl)).
    destruct (part_001.cache (fst (History.run evs part_001.init)));
      eexists; reflexivity.
  - destruct (run_000 evs part_000.init free_init_000)
      as (Hl & _ & Hc & _).
    remember (last_published_at evs (None, 0)) as p eqn:Ep.
    assert (Hp : p = (part_000.cache (fst (History000.run evs part_000.init)),
                      part_000.cacheTimestamp
                        (fst (History000.run evs part_000.init))))
      by (rewrite Ep; symmetry; exact Hc).
    rewrite Hp.
    unfold handlers.part_000_api, bind.
    rewrite (fetchCache_000 _ (proj1 Hl)).
    destruct (part_000.cache (fst (History000.run evs part_000.init)));
      eexists; reflexivity.
  - destruct (run_000 evs part_000.init free_init_000)
      as (Hl & _ & Hc & _).
    remember (last_published_at evs (None, 0)) as p eqn:Ep.
    assert (Hp : p = (part_000.cache (fst (History000.run evs part_000.init)),
                      part_000.cacheTimestamp
                        (fst (History000.run evs part_000.init))))
      by (rewrite Ep; symmetry; exact Hc).
    rewrite Hp.
    unfold handlers.part_000_root, bind.
    rewrite (fetchCache_000 _ (proj1 Hl)).
    destruct (part_000.cache (fst (History000.run evs part_000.init)));
      eexists; reflexivity.
Qed.

End CacheOverHistories.

(* ------------------------------------------------------------------ *)
(** ** Goroutines and the lock *)

Section EagerAndLock.
Import Spec Published.

(** X8.  Cold start.  A read on the empty cache returns [CacheEmpty] and
    leaves one goroutine; when that goroutine runs, its result is
    dropped: if the rebuild publishes, the next read returns the
    records; if it fails, nothing is logged, the process goes on, the
    cache is still empty, and the next read returns [CacheEmpty] and
    starts a goroutine again. *)
Theorem X8_eager_rebuild_drops_its_error (w : World) (st : part_001.State) :
  rw_free (part_001.cacheMutex st) ->
  part_001.cache st = None ->
  part_001.goroutines st = [] ->
  exists s1 s2,
    part_001.fetchCache st = Some (s1, (None, Some CacheEmpty))
    /\ Eager.schedule w s1 = Some (s2, tt)
    /\ part_001.cache s2 = published w
    /\ part_001.goroutines s2 = []
    /\ part_001.logged s2 = part_001.logged st
    /\ part_001.exited s2 = part_001.exited st
    /\ rw_free (part_001.cacheMutex s2)
    /\ (published w = None -> s2 = st)
    /\ match published w with
       | Some fs => part_001.fetchCache s2 = Some (s2, (Some fs, None))
       | None =>
           exists s3,
             part_001.fetchCache s2 = Some (s3, (None, Some CacheEmpty))
             /\ part_001.goroutines s3 = [GoRebuildCache]
       end.
Proof.
  intros Hl Hc Hg.
  rewrite (fetchCache_001 st (proj1 Hl)), Hc, Hg.
  assert (Hs : forall s1,
             s1 = part_001.mkState (part_001.cacheMutex st) None
                    ([] ++ [GoRebuildCache]) (part_001.logged st)
                    (part_001.exited st) ->
             Eager.schedule w s1
             = Some (match published w with
                     | Some fs =>
                         part_001.mkState (part_001.cacheMutex st) (Some fs)
                           [] (part_001.logged st) (part_001.exited st)
                     | None =>
                         part_001.mkState (part_001.cacheMutex st) None
                           [] (part_001.logged st) (part_001.exited st)
                     end, tt)).
  { intros s1 ->. unfold Eager.schedule.
    cbn [part_001.goroutines part_001.cacheMutex part_001.cache
           part_001.logged part_001.exited app].
    unfold bind at 1. rewrite rebuild_published_001 by exact Hl.
    destruct (published w); reflexivity. }
  eexists. eexists. split; [reflexivity |].
  split; [apply Hs; reflexivity |]. clear Hs.
  destruct (published w) as [fs |];
    cbn [part_001.goroutines part_001.cacheMutex part_001.cache part_001.logged
           part_001.exited].
  - repeat (split; [reflexivity || exact Hl || discriminate |]).
    rewrite fetchCache_001 by apply Hl. reflexivity.
  - repeat (split; [reflexivity || exact Hl |]).
    split.
    + intros _. destruct st; cbn in *. now subst.
    + rewrite fetchCache_001 by apply Hl.
      eexists. split; reflexivity.
Qed.

Lemma X8_eager_rebuild_drops_its_error_witness :
  exists s1 s2,
    part_001.fetchCache part_001.init = Some (s1, (None, Some CacheEmpty))
    /\ Eager.schedule sample.unreachable s1 = Some (s2, tt)
    /\ part_001.cache s2 = None
    /\ part_001.logged s2 = []
    /\ part_001.exited s2 = None.
Proof.
  destruct (X8_eager_rebuild_drops_its_error sample.unreachable part_001.init
              (conj eq_refl eq_refl) eq_refl eq_refl)
    as (s1 & s2 & H1 & H2 & H3 & _ & H5 & H6 & _).
  exists s1, s2. auto.
Defined.



End EagerAndLock.

(* ------------------------------------------------------------------ *)
(** ** Requests to [main.go] *)

Section MainGoRequests.
Import Spec Published.

Lemma main_go_root_hit (w : World) (st : main_go.State) (fs : list forecast) :
  locked (main_go.cacheMutex st) = false ->
  main_go.cache st = Some fs ->
  handlers.main_go_root w st
  = Some (st, gin.mkResponse 200 [] (gin.JSON (Some fs)) []).
Proof.
  intros Hl Hc. unfold handlers.main_go_root, bind.
  rewrite (fetchParseAndJsonify_hit w st fs Hl Hc). reflexivity.
Qed.

Lemma main_go_root_miss (w : World) (st : main_go.State) :
  locked (main_go.cacheMutex st) = false ->
  main_go.cache st = None ->
  handlers.main_go_root w st
  = Some
      match published w with
      | Some fs =>
          (main_go.mkState (main_go.cacheMutex st) (Some fs),
           gin.mkResponse 200 [] (gin.JSON (Some fs)) [])
      | None =>
          (st,
           match rebuild_error main_go.extract w with
           | Some e => gin.AbortWithError 500 e
           | None => gin.mkResponse 200 [] (gin.JSON None) []
           end)
      end.
Proof.
  intros Hl Hc. unfold handlers.main_go_root, bind.
  rewrite (fetchParseAndJsonify_miss w st Hl Hc).
  pose proof (published_extract w) as Hp. unfold rebuild_error in *.
  change main_go.extract with part_001.extract.
  destruct (published w) as [fs |].
  - destruct Hp as (doc & -> & ->). reflexivity.
  - destruct (NewDocument w) as [cause | doc]; [reflexivity |].
    destruct (part_001.extract doc) as [[e |] fs]; [reflexivity |].
    contradiction Hp. reflexivity.
Qed.

Lemma main_go_serve_frozen (ws : list World) (st : main_go.State)
      (fs : list forecast) :
  locked (main_go.cacheMutex st) = false ->
  main_go.cache st = Some fs ->
  handlers.main_go_serve ws st
  = (st, repeat (Some (gin.mkResponse 200 [] (gin.JSON (Some fs)) []))
           (List.length ws)).
Proof.
  intros Hl Hc. induction ws as [| w ws IH]; [reflexivity |].
  cbn [handlers.main_go_serve]. rewrite (main_go_root_hit w st fs Hl Hc), IH.
  reflexivity.
Qed.

(** X10.  [main.go] fetches until one request succeeds, and never again.
    Each request made while the cache is empty consults the upstream: if
    the fetch or the extraction fails it is answered 500 with that error
    attached and the cache stays empty, so that the next request tries
    again.  From the first request that succeeds on, every request is
    answered 200 with the records of that one, whatever the upstream
    would answer by then. *)
Theorem X10_main_go_serves_the_first_success
        (fails : list World) (w : World) (ws : list World) (fs : list forecast) :
  Forall (fun w' => published w' = None) fails ->
  published w = Some fs ->
  exists errs,
    Forall2 (fun w' e => rebuild_error main_go.extract w' = Some e) fails errs
    /\ handlers.main_go_serve (fails ++ w :: ws) main_go.init
       = (main_go.mkState (mkMutex false) (Some fs),
          map (fun e => Some (gin.AbortWithError 500 e)) errs
          ++ repeat (Some (gin.mkResponse 200 [] (gin.JSON (Some fs)) []))
               (S (List.length ws))).
Proof.
  intros Hf Hw.
  induction Hf as [| w' fails Hw' _ IH].
  - exists []. split; [constructor |].
    cbn [app handlers.main_go_serve map].
    rewrite (main_go_root_miss w main_go.init eq_refl eq_refl), Hw.
    rewrite (main_go_serve_frozen ws
               (main_go.mkState (main_go.cacheMutex main_go.init) (Some fs))
               fs eq_refl eq_refl).
    reflexivity.
  - destruct IH as (errs & HF & Hs).
    pose proof (published_extract w') as Hp. rewrite Hw' in Hp.
    change part_001.extract with main_go.extract in Hp.
    destruct (rebuild_error main_go.extract w') as [e |] eqn:He;
      [| contradiction Hp; reflexivity].
    exists (e :: errs). split; [constructor; assumption |].
    cbn [app handlers.main_go_serve map].
    rewrite (main_go_root_miss w' main_go.init eq_refl eq_refl), Hw', He, Hs.
    reflexivity.
Qed.

Lemma X10_main_go_serves_the_first_success_witness :
  published sample.unreachable = None
  /\ published sample.reachable
     = Some [mkForecast "Aarhus" "Moderat"
               [mkForecastValue "Birk" 12; mkForecastValue "El" 0]]
  /\ exists errs,
      Forall2 (fun w' e => rebuild_error main_go.extract w' = Some e)
        [sample.unreachable] errs
      /\ handlers.main_go_serve
           ([sample.unreachable] ++ sample.reachable :: [sample.unreachable])
           main_go.init
         = (main_go.mkState (mkMutex false)
              (Some [mkForecast "Aarhus" "Moderat"
                       [mkForecastValue "Birk" 12; mkForecastValue "El" 0]]),
            map (fun e => Some (gin.AbortWithError 500 e)) errs
            ++ repeat
                 (Some (gin.mkResponse 200 []
                          (gin.JSON
                             (Some [mkForecast "Aarhus" "Moderat"
                                      [mkForecastValue "Birk" 12;
                                       mkForecastValue "El" 0]])) []))
                 2).
Proof.
  split; [reflexivity | split; [reflexivity |]].
  exact (X10_main_go_serves_the_first_success [sample.unreachable]
           sample.reachable [sample.unreachable] _
           (Forall_cons sample.unreachable
              (eq_refl : published sample.unreachable = None) (Forall_nil _))
           eq_refl).
Defined.

End MainGoRequests.

(* ------------------------------------------------------------------ *)
(** ** The refresh job, tick after tick *)

Section RefreshJobRuns.
Import Spec Published.

Lemma job_001_ok (w : World) (ticks : list World) (st : part_001.State)
      (fs : list forecast) :
  rw_free (part_001.cacheMutex st) -> published w = Some fs ->
  part_001.refreshCacheJob (w :: ticks) st
  = part_001.refreshCacheJob ticks
      (part_001.mkState (part_001.cacheMutex st) (Some fs)
         (part_001.goroutines st) (part_001.logged st ++ [LogRebuildOk])
         (part_001.exited st)).
Proof.
  intros Hl Hw. cbn [part_001.refreshCacheJob]. unfold bind at 1.
  rewrite (rebuild_published_001 w st Hl), Hw. reflexivity.
Qed.

Lemma job_000_unfold (ticks : list World) (w : World) :
  part_000.refreshCacheJob ticks w
  = (err <- part_000.rebuildCache w ;;
     match err with
     | Some e => part_000.log_Fatalln (LogRebuildError e)
     | None =>
         part_000.log_Println LogRebuildOk ;;
         match ticks with
         | [] => ret tt
         | w' :: ticks' => part_000.refreshCacheJob ticks' w'
         end
     end).
Proof. destruct ticks; reflexivity. Qed.

Lemma job_000_ok (w : World) (ticks : list World) (st : part_000.State)
      (fs : list forecast) :
  rw_free (part_000.cacheMutex st) -> published w = Some fs ->
  part_000.refreshCacheJob ticks w st
  = match ticks with
    | [] => ret tt
    | w' :: ticks' => part_000.refreshCacheJob ticks' w'
    end
      (part_000.mkState (part_000.cacheMutex st) (Some fs) (Now w)
         (part_000.goroutines st) (part_000.logged st ++ [LogRebuildOk])
         (part_000.exited st)).
Proof.
  intros Hl Hw. rewrite job_000_unfold. unfold bind at 1.
  rewrite (rebuild_published_000 w st Hl), Hw. reflexivity.
Qed.

Lemma job_001_run (oks : list World) :
  forall tail st,
    rw_free (part_001.cacheMutex st) ->
    Forall (fun w => published w <> None) oks ->
    part_001.refreshCacheJob (oks ++ tail) st
    = part_001.refreshCacheJob tail
        (part_001.mkState (part_001.cacheMutex st)
           (last_published (map History.Rebuild oks) (part_001.cache st))
           (part_001.goroutines st)
           (part_001.logged st ++ repeat LogRebuildOk (List.length oks))
           (part_001.exited st)).
Proof.
  induction oks as [| w oks IH]; intros tail st Hl Hok.
  - cbn. rewrite app_nil_r. destruct st; reflexivity.
  - inversion Hok as [| ? ? Hw Hoks]. subst.
    destruct (published w) as [fs |] eqn:E; [| contradiction Hw; reflexivity].
    cbn [app]. rewrite (job_001_ok w _ st fs Hl E).
    rewrite (IH tail
               (part_001.mkState (part_001.cacheMutex st) (Some fs)
                  (part_001.goroutines st)
                  (part_001.logged st ++ [LogRebuildOk]) (part_001.exited st))
               Hl Hoks).
    cbn [map last_published part_001.cacheMutex part_001.cache
           part_001.goroutines part_001.logged part_001.exited length repeat].
    rewrite E, <- app_assoc. reflexivity.
Qed.

Lemma job_000_run (oks : list World) :
  forall w ticks st,
    rw_free (part_000.cacheMutex st) ->
    Forall (fun w => published w <> None) oks ->
    forall w0 ticks0, oks ++ w :: ticks = w0 :: ticks0 ->
    part_000.refreshCacheJob ticks0 w0 st
    = part_000.refreshCacheJob ticks w
        (part_000.mkState (part_000.cacheMutex st)
           (fst (last_published_at (map History.Rebuild oks)
                   (part_000.cache st, part_000.cacheTimestamp st)))
           (snd (last_published_at (map History.Rebuild oks)
                   (part_000.cache st, part_000.cacheTimestamp st)))
           (part_000.goroutines st)
           (part_000.logged st ++ repeat LogRebuildOk (List.length oks))
           (part_000.exited st)).
Proof.
  induction oks as [| o oks IH]; intros w ticks st Hl Hok w0 ticks0 Heq.
  - cbn in Heq. inversion Heq. subst. cbn. rewrite app_nil_r.
    destruct st; reflexivity.
  - inversion Hok as [| ? ? Ho Hoks]. subst.
    cbn [app] in Heq. inversion Heq. subst w0 ticks0.
    destruct (published o) as [fs |] eqn:E; [| contradiction Ho; reflexivity].
    rewrite (job_000_ok o _ st fs Hl E).
    destruct (oks ++ w :: ticks) as [| w1 ticks1] eqn:Hrest.
    { destruct oks; discriminate. }
    rewrite (IH w ticks
               (part_000.mkState (part_000.cacheMutex st) (Some fs) (Now o)
                  (part_000.goroutines st)
                  (part_000.logged st ++ [LogRebuildOk]) (part_000.exited st))
               Hl Hoks w1 ticks1 Hrest).
    cbn [map last_published_at part_000.cacheMutex part_000.cache
           part_000.cacheTimestamp part_000.goroutines part_000.logged
           part_000.exited length repeat].
    rewrite E, <- app_assoc. reflexivity.
Qed.

End RefreshJobRuns.

Section RefreshJobTheorems.
Import Spec Published.

Lemma job_000_all_ok (ticks : list World) :
  forall w st,
    rw_free (part_000.cacheMutex st) ->
    Forall (fun w => published w <> None) (w :: ticks) ->
    part_000.refreshCacheJob ticks w st
    = Some
        (part_000.mkState (part_000.cacheMutex st)
           (fst (last_published_at (map History.Rebuild (w :: ticks))
                   (part_000.cache st, part_000.cacheTimestamp st)))
           (snd (last_published_at (map History.Rebuild (w :: ticks))
                   (part_000.cache st, part_000.cacheTimestamp st)))
           (part_000.goroutines st)
           (part_000.logged st
            ++ repeat LogRebuildOk (S (List.length ticks)))
           (part_000.exited st), tt).
Proof.
  induction ticks as [| w' ticks IH]; intros w st Hl Hok;
    inversion Hok as [| ? ? Hw Hoks]; subst;
    destruct (published w) as [fs |] eqn:E;
    try (contradiction Hw; reflexivity);
    rewrite (job_000_ok w _ st fs Hl E).
  - cbn [map last_published_at]. rewrite E. reflexivity.
  - rewrite (IH w'
               (part_000.mkState (part_000.cacheMutex st) (Some fs) (Now w)
                  (part_000.goroutines st)
                  (part_000.logged st ++ [LogRebuildOk]) (part_000.exited st))
               Hl Hoks).
    cbn [map last_published_at part_000.cacheMutex part_000.cache
           part_000.cacheTimestamp part_000.goroutines part_000.logged
           part_000.exited].
    rewrite E, <- app_assoc. reflexivity.
Qed.

(** X11.  While the rebuilds succeed the job serves every tick and the
    process stays alive: one line "rebuild successful" is logged per
    rebuild, and the cache ends as the records of the last one.  The
    job of the variant with timestamp rebuilds once at start and then
    once per tick; the other one waits for the first tick, and does
    nothing before it. *)
Theorem X11_job_rebuilds_at_every_tick :
  (forall ticks st,
      rw_free (part_001.cacheMutex st) ->
      Forall (fun w => published w <> None) ticks ->
      exists st',
        part_001.refreshCacheJob ticks st = Some (st', tt)
        /\ part_001.exited st' = part_001.exited st
        /\ part_001.logged st'
           = part_001.logged st ++ repeat LogRebuildOk (List.length ticks)
        /\ part_001.cache st'
           = last_published (map History.Rebuild ticks) (part_001.cache st)
        /\ rw_free (part_001.cacheMutex st'))
  /\ (forall w ticks st,
         rw_free (part_000.cacheMutex st) ->
         Forall (fun w => published w <> None) (w :: ticks) ->
         exists st',
           part_000.refreshCacheJob ticks w st = Some (st', tt)
           /\ part_000.exited st' = part_000.exited st
           /\ part_000.logged st'
              = part_000.logged st
                ++ repeat LogRebuildOk (S (List.length ticks))
           /\ (part_000.cache st', part_000.cacheTimestamp st')
              = last_published_at (map History.Rebuild (w :: ticks))
                  (part_000.cache st, part_000.cacheTimestamp st)
           /\ rw_free (part_000.cacheMutex st')).
Proof.
  split.
  - intros ticks st Hl Hok.
    pose proof (job_001_run ticks [] st Hl Hok) as H.
    rewrite app_nil_r in H. rewrite H. cbn [part_001.refreshCacheJob].
    eexists. split; [reflexivity |].
    cbn [part_001.exited part_001.logged part_001.cache part_001.cacheMutex].
    repeat split; apply Hl.
  - intros w ticks st Hl Hok.
    rewrite (job_000_all_ok ticks w st Hl Hok).
    eexists. split; [reflexivity |].
    cbn [part_000.exited part_000.logged part_000.cache part_000.cacheMutex
           part_000.cacheTimestamp].
    split; [reflexivity |]. split; [reflexivity |].
    split; [| exact Hl].
    now destruct (last_published_at _ _).
Qed.

Lemma X11_job_rebuilds_at_every_tick_witness :
  (exists st',
      part_001.refreshCacheJob [sample.reachable; sample.reachable]
        part_001.init = Some (st', tt)
      /\ part_001.exited st' = None
      /\ part_001.logged st' = [LogRebuildOk; LogRebuildOk])
  /\ (exists st',
         part_000.refreshCacheJob [sample.reachable] sample.reachable
           part_000.init = Some (st', tt)
         /\ part_000.exited st' = None
         /\ part_000.logged st' = [LogRebuildOk; LogRebuildOk]).
Proof.
  assert (Hall : Forall (fun w => published w <> None)
                   [sample.reachable; sample.reachable])
    by (repeat constructor; discriminate).
  split.
  - destruct (proj1 X11_job_rebuilds_at_every_tick
                [sample.reachable; sample.reachable] part_001.init
                (conj eq_refl eq_refl) Hall)
      as (st' & H1 & H2 & H3 & _).
    exists st'. auto.
  - destruct (proj2 X11_job_rebuilds_at_every_tick
                sample.reachable [sample.reachable] part_000.init
                (conj eq_refl eq_refl) Hall)
      as (st' & H1 & H2 & H3 & _).
    exists st'. auto.
Defined.

(** X12.  The job ends the process at the first rebuild that fails,
    wherever it comes: the rebuilds before it are served and logged,
    then the error is logged, the exit code is 1, the cache keeps the
    records of the last rebuild that succeeded, and the ticks after it
    are never served. *)
Theorem X12_job_stops_at_the_first_failure :
  (forall oks bad rest st e,
      rw_free (part_001.cacheMutex st) ->
      Forall (fun w => published w <> None) oks ->
      rebuild_error part_001.extract bad = Some e ->
      exists st',
        part_001.refreshCacheJob (oks ++ bad :: rest) st = Some (st', tt)
        /\ part_001.exited st' = Some 1
        /\ part_001.logged st'
           = part_001.logged st
             ++ repeat LogRebuildOk (List.length oks) ++ [LogRebuildError e]
        /\ part_001.cache st'
           = last_published (map History.Rebuild oks) (part_001.cache st))
  /\ (forall oks bad rest w ticks st e,
         rw_free (part_000.cacheMutex st) ->
         Forall (fun w => published w <> None) oks ->
         rebuild_error part_000.extract bad = Some e ->
         oks ++ bad :: rest = w :: ticks ->
         exists st',
           part_000.refreshCacheJob ticks w st = Some (st', tt)
           /\ part_000.exited st' = Some 1
           /\ part_000.logged st'
              = part_000.logged st
                ++ repeat LogRebuildOk (List.length oks) ++ [LogRebuildError e]
           /\ (part_000.cache st', part_000.cacheTimestamp st')
              = last_published_at (map History.Rebuild oks)
                  (part_000.cache st, part_000.cacheTimestamp st)).
Proof.
  split.
  - intros oks bad rest st e Hl Hok He.
    rewrite (job_001_run oks (bad :: rest) st Hl Hok).
    rewrite job_001_fatal with (e := e); [| exact Hl | exact He].
    eexists. split; [reflexivity |].
    cbn [part_001.exited part_001.logged part_001.cache].
    rewrite <- app_assoc. repeat split; reflexivity.
  - intros oks bad rest w ticks st e Hl Hok He Heq.
    rewrite (job_000_run oks bad rest st Hl Hok w ticks Heq).
    rewrite job_000_fatal with (e := e); [| exact Hl | exact He].
    eexists. split; [reflexivity |].
    cbn [part_000.exited part_000.logged part_000.cache
           part_000.cacheTimestamp].
    rewrite <- app_assoc. split; [reflexivity |]. split; [reflexivity |].
    now destruct (last_published_at _ _).
Qed.

Lemma X12_job_stops_at_the_first_failure_witness :
  exists st',
    part_001.refreshCacheJob
      ([sample.reachable] ++ sample.unreachable :: [sample.reachable])
      part_001.init = Some (st', tt)
    /\ part_001.exited st' = Some 1
    /\ part_001.logged st'
       = [LogRebuildOk; LogRebuildError (FetchError "dial tcp: timeout")].
Proof.
  assert (Hall : Forall (fun w => published w <> None) [sample.reachable])
    by (repeat constructor; discriminate).
  destruct (proj1 X12_job_stops_at_the_first_failure
              [sample.reachable] sample.unreachable [sample.reachable]
              part_001.init (FetchError "dial tcp: timeout")
              (conj eq_refl eq_refl)
              Hall eq_refl)
    as (st' & H1 & H2 & H3 & _).
  exists st'. auto.
Defined.

End RefreshJobTheorems.

Section SelectorWitness.
Import goquery Published.

Lemma X3_changed_markup_empties_the_cache_witness :
  forallb (fun n => negb (has_store_div n))
    [Element "div" ["forecast"]
       [sample.block [sample.tr [Element "td" [] [sample.aarhus "Moderat"]]]]]
  = true
  /\ part_001.extract
       [Element "div" ["forecast"]
          [sample.block [sample.tr [Element "td" [] [sample.aarhus "Moderat"]]]]]
     = (None, []).
Proof.
  split; [reflexivity |].
  exact (proj1 (proj2 (X3_changed_markup_empties_the_cache
                         [Element "div" ["forecast"]
                            [sample.block
                               [sample.tr
                                  [Element "td" []
                                     [sample.aarhus "Moderat"]]]]]
                         (or_introl eq_refl)))).
Defined.

End SelectorWitness.
